(** * Agentic-retrieval quickstart: a shallow embedding

    The repository holds two families of programs:

    - the flat quickstart scripts (src/src/index.ts and its siblings, the
      scripts that start with [documentKeyRetriever] and [WAIT_TIME]), which
      drive the SDK clients at module top level; and
    - the function-based application ([fetchEarthAtNightDocuments],
      [createKnowledgeSource], [createKnowledgeBase], [runAgenticRetrieval],
      [continueConversation], ...), which talks REST through [fetch].

    Both are embedded over one effect monad [M]: a computation reads and
    updates a world (the remote services), appends to a trace of the external
    operations it performed, and ends by returning, by throwing, or by still
    being suspended in a loop when the fuel given to that loop is used up.

    Left out of the embedding: console output (the values a log line reads
    are kept where reading them can raise), [printFormattedAnswer], which
    catches whatever it raises, and the constructors of the SDK clients
    other than the buffered sender. *)

From Stdlib Require Import ZArith QArith List String Ascii DecimalString Lia.
From Stdlib Require DecimalNat DecimalFacts.
From stdpp Require Import base option list strings gmap.

Set Warnings "-register-all".
Local Open Scope Z_scope.

(** ** JavaScript values, as [response.json()] and property reads produce them *)

Module JS.

(** A JS number is a double; every finite double is a rational and the
    programs do no floating-point arithmetic (only [index + 1] on array
    positions), so numbers are carried as rationals. *)
Inductive value : Type :=
| Undefined
| Null
| Bool (b : bool)
| Num (q : Q)
| Str (s : string)
| Arr (elems : list value)
| Obj (props : list (string * value)).

Inductive exn : Type :=
| Error (message : string)
| TypeError (message : string)
| SyntaxError (message : string)
| Rejected (reason : string).

(** ToBoolean: the falsy values are undefined, null, false, 0, and the empty
    string. *)
Definition truthy (v : value) : bool :=
  match v with
  | Undefined | Null => false
  | Bool b => b
  | Num q => negb (Qeq_bool q 0)
  | Str s => negb (String.eqb s "")
  | Arr _ | Obj _ => true
  end.

(** [a || b] *)
Definition or_else (a b : value) : value := if truthy a then a else b.

Fixpoint assoc (k : string) (props : list (string * value)) : value :=
  match props with
  | [] => Undefined
  | (k', v) :: rest => if String.eqb k k' then v else assoc k rest
  end.

Definition of_nat (n : nat) : value := Num (inject_Z (Z.of_nat n)).

(** A JS string is a sequence of UTF-16 code units; here it is carried as
    the bytes of its UTF-8 encoding.  Each code point is one byte sequence:
    its first byte tells how many code units it takes (two for the code
    points from U+10000 on, whose first byte is 0xF0 or above; one for the
    others), and its continuation bytes (0x80 to 0xBF) add nothing. *)
Definition code_units (byte : ascii) : nat :=
  let b := nat_of_ascii byte in
  if (b <? 128)%nat then 1%nat
  else if (b <? 192)%nat then 0%nat
  else if (b <? 240)%nat then 1%nat
  else 2%nat.

(** [s.length] *)
Fixpoint utf16_length (s : string) : nat :=
  match s with
  | EmptyString => 0%nat
  | String byte rest => (code_units byte + utf16_length rest)%nat
  end.

(** [v.k] for the property names the programs read.  Reading a property of
    undefined or null raises a TypeError (with the message Node gives);
    arrays and strings own [length]; any other name on a primitive or an
    array is undefined. *)
Definition get (v : value) (k : string) : exn + value :=
  match v with
  | Undefined =>
      inl (TypeError ("Cannot read properties of undefined (reading '" +:+ k +:+ "')"))
  | Null =>
      inl (TypeError ("Cannot read properties of null (reading '" +:+ k +:+ "')"))
  | Obj props => inr (assoc k props)
  | Arr elems => inr (if String.eqb k "length" then of_nat (List.length elems) else Undefined)
  | Str s => inr (if String.eqb k "length" then of_nat (utf16_length s) else Undefined)
  | Bool _ | Num _ => inr Undefined
  end.

(** [n === v] for a number [n] on the left. *)
Definition strict_equal_num (n : Z) (v : value) : bool :=
  match v with
  | Num q => Qeq_bool (inject_Z n) q
  | _ => false
  end.

(** [String(n)] on a natural number: its decimal numeral. *)
Definition to_String (n : nat) : string := NilZero.string_of_uint (Nat.to_uint n).

(** [`${z}`] on an integer. *)
Definition show_Z (z : Z) : string := NilZero.string_of_int (Z.to_int z).

(** [new Array(n).fill(x)] *)
Definition Array_fill (n : nat) (x : value) : value := Arr (repeat x n).

Definition nullish (v : value) : bool :=
  match v with Undefined | Null => true | _ => false end.

(** [v.k] where the read cannot raise. *)
Definition field (v : value) (k : string) : value :=
  match get v k with inr x => x | inl _ => Undefined end.

#[global] Arguments Array_fill : simpl never.

End JS.

Export JS.

(** ** Requests, responses and the trace of external operations *)

Inductive method : Type := GET | POST | PUT | DELETE.

(** [{ name: ... }] *)
Record named : Type := { name : string }.

(** The object literal [knowledgeSourceDefinition]. *)
Record knowledgeSourceDefinition : Type := {
  ks_name : string;
  ks_description : string;
  ks_kind : string;
  ks_searchIndexName : string;
  ks_sourceDataFields : list named
}.

Record azureOpenAIParameters : Type := {
  resourceUri : string;
  deploymentId : string;
  modelName : string
}.

(** The object literal [knowledgeBaseDefinition]. *)
Record knowledgeBaseDefinition : Type := {
  kb_name : string;
  kb_knowledgeSources : list named;
  kb_models : list azureOpenAIParameters;
  kb_outputMode : string;
  kb_answerInstructions : string
}.

Inductive role : Type := user | assistant | system.

(** interface KnowledgeAgentMessage *)
Record KnowledgeAgentMessage : Type := { msg_role : role; content : string }.

(** [{ role, content: [{ type: "text", text }] }] *)
Record agentMessage : Type := { am_role : role; am_text : string }.

Record knowledgeSourceParams : Type := {
  knowledgeSourceName_ : string;
  kind_ : string;
  includeReferences : bool;
  includeReferenceSourceData : bool;
  alwaysQuerySource : bool;
  rerankerThreshold : Q
}.

(** The object literal [retrievalRequest]. *)
Record retrievalRequest : Type := {
  messages : list agentMessage;
  sourceParams : list knowledgeSourceParams;
  includeActivity : bool;
  retrievalReasoningEffort : string
}.

(** What [JSON.stringify] is applied to before it is sent. *)
Inductive payload : Type :=
| SourceBody (d : knowledgeSourceDefinition)
| BaseBody (d : knowledgeBaseDefinition)
| RetrievalBody (r : retrievalRequest).

Record request : Type := {
  req_method : method;
  url : string;
  headers : list (string * string);
  body : option payload
}.

(** A [Response]: [json] is [None] when the body is not JSON text, in which
    case [response.json()] rejects. *)
Record response : Type := {
  status : Z;
  statusText : string;
  text : string;
  json : option value
}.

(** [response.ok] *)
Definition ok (r : response) : bool := (200 <=? status r) && (status r <=? 299).

(** Calls on the SDK clients whose result the scripts use for printing only. *)
Inductive sdk_op : Type :=
| CreateOrUpdateIndex
| NewBufferedSender (autoFlush : bool)
| On (eventName : string)
| UploadDocuments (documents : value)
| Flush
| Dispose
| SdkCreateKnowledgeSource
| SdkCreateKnowledgeBase
| RetrieveKnowledge (r : retrievalRequest)
| DeleteKnowledgeBase
| DeleteKnowledgeSource
| DeleteIndex.

Inductive event : Type :=
| EvFetch (req : request)
| EvGetToken (scope : string)
| EvDelay (ms : Z)
| EvGetDocumentsCount (count : Z)
| EvGetDocumentsCountFailed
| EvSdk (o : sdk_op).

(** The remote services, as the programs see them. *)
Class World (W : Type) : Type := {
  world_fetch : request -> W -> (exn + response) * W;
  world_getToken : string -> W -> (exn + string) * W;
  world_getDocumentsCount : W -> (exn + Z) * W;
  world_sdk : sdk_op -> W -> (exn + unit) * W
}.

(** ** The effect monad *)

Inductive outcome (A : Type) : Type :=
| Returned (a : A)
| Thrown (e : exn)
| Pending.
Arguments Returned {A} a.
Arguments Thrown {A} e.
Arguments Pending {A}.

Definition M (W A : Type) : Type := W -> outcome A * list event * W.

Definition ret {W A} (a : A) : M W A := fun w => (Returned a, [], w).
Definition throw {W A} (e : exn) : M W A := fun w => (Thrown e, [], w).
Definition pending {W A} : M W A := fun w => (Pending, [], w).

Definition bind {W A B} (m : M W A) (f : A -> M W B) : M W B :=
  fun w =>
    match m w with
    | (Returned a, t1, w1) =>
        match f a w1 with (o, t2, w2) => (o, t1 ++ t2, w2) end
    | (Thrown e, t1, w1) => (Thrown e, t1, w1)
    | (Pending, t1, w1) => (Pending, t1, w1)
    end.

(** [try { m } catch (error) { handler error }] *)
Definition try_catch {W A} (m : M W A) (handler : exn -> M W A) : M W A :=
  fun w =>
    match m w with
    | (Thrown e, t1, w1) =>
        match handler e w1 with (o, t2, w2) => (o, t1 ++ t2, w2) end
    | r => r
    end.

#[export] Instance M_ret {W} : MRet (M W) := fun A => @ret W A.
#[export] Instance M_bind {W} : MBind (M W) := fun A B f m => @bind W A B m f.

Notation "m1 ;; m2" := (bind m1 (fun _ => m2))
  (at level 100, m2 at level 200, right associativity).

(** An external call: run it in the world and record [ev] of its result. *)
Definition perform {W A} (call : W -> (exn + A) * W) (ev : exn + A -> event) : M W A :=
  fun w =>
    match call w with
    | (inr a, w') => (Returned a, [ev (inr a)], w')
    | (inl e, w') => (Thrown e, [ev (inl e)], w')
    end.

Definition lift {W A} (r : exn + A) : M W A :=
  match r with inr a => ret a | inl e => throw e end.

Section Primitives.
Context {W : Type} {world : World W}.

Definition fetch (req : request) : M W response :=
  perform (world_fetch req) (fun _ => EvFetch req).

(** [credential.getToken(scope)], the token of the response *)
Definition getToken (scope : string) : M W string :=
  perform (world_getToken scope) (fun _ => EvGetToken scope).

Definition getDocumentsCount : M W Z :=
  perform world_getDocumentsCount
    (fun r => match r with inr c => EvGetDocumentsCount c | inl _ => EvGetDocumentsCountFailed end).

Definition sdk (o : sdk_op) : M W unit :=
  perform (world_sdk o) (fun _ => EvSdk o).

(** [delay(timeInMs)]: a promise that resolves after the timer fires. *)
Definition delay (timeInMs : Z) : M W unit :=
  fun w => (Returned tt, [EvDelay timeInMs], w).

(** [response.json()] *)
Definition response_json (r : response) : M W value :=
  match json r with
  | Some v => ret v
  | None => throw (SyntaxError "Unexpected token in JSON")
  end.

(** [response.text()] *)
Definition response_text (r : response) : M W string := ret (text r).

End Primitives.

Definition WAIT_TIME : Z := 4000.

(** ** The indexing convergence monitor of the flat scripts

<<
    console.log(`Expected documents: ${documents.length}`);
    await delay(WAIT_TIME);
    let count = await searchClient.getDocumentsCount();
    while (count !== documents.length) {
        await delay(WAIT_TIME);
        count = await searchClient.getDocumentsCount();
    }
>>
    [fuel] bounds the number of loop iterations the model follows; the
    outcome is [Pending] when the loop is still running after that many.
    The value returned is the last value of [count]. *)

Section Monitor.
Context {W : Type} {world : World W}.

Fixpoint poll (fuel : nat) (expected : value) (count : Z) : M W Z :=
  if strict_equal_num count expected then ret count
  else
    match fuel with
    | O => pending
    | S fuel' =>
        delay WAIT_TIME ;;
        count' ← getDocumentsCount;
        poll fuel' expected count'
    end.

Definition awaitIndexing (fuel : nat) (documents : value) : M W Z :=
  expected ← lift (get documents "length");
  delay WAIT_TIME ;;
  count ← getDocumentsCount;
  poll fuel expected count.

End Monitor.

(** ** The function-based application *)

(** The module-level [config] object.  The source fixes [indexName],
    [knowledgeSourceName], [knowledgeBaseName] and [searchApiVersion] to
    literals (see [literal_config]); the other fields come from the process
    environment. *)
Record Config : Type := {
  searchEndpoint : string;
  azureOpenAIEndpoint : string;
  azureOpenAIGptDeployment : string;
  azureOpenAIGptModel : string;
  indexName : string;
  knowledgeSourceName : string;
  knowledgeBaseName : string;
  searchApiVersion : string
}.

Definition literal_config (AZURE_SEARCH_ENDPOINT AZURE_OPENAI_ENDPOINT AZURE_OPENAI_GPT_DEPLOYMENT : string) : Config :=
  {| searchEndpoint := AZURE_SEARCH_ENDPOINT;
     azureOpenAIEndpoint := AZURE_OPENAI_ENDPOINT;
     azureOpenAIGptDeployment := AZURE_OPENAI_GPT_DEPLOYMENT;
     azureOpenAIGptModel := AZURE_OPENAI_GPT_DEPLOYMENT;
     indexName := "earth_at_night";
     knowledgeSourceName := "earth-knowledge-source";
     knowledgeBaseName := "earth-knowledge-base";
     searchApiVersion := "2025-11-01-preview" |}.

(** interface EarthAtNightDocument.  The records come from [doc: any], so a
    field holds whatever value the payload carried there. *)
Record EarthAtNightDocument : Type := {
  id : value;
  page_chunk : value;
  page_embedding_text_3_large : value;
  page_number : value
}.

Definition documentsUrl : string :=
  "https://raw.githubusercontent.com/Azure-Samples/azure-search-sample-data/refs/heads/main/nasa-e-book/earth-at-night-json/documents.json".

Definition documentsRequest : request :=
  {| req_method := GET; url := documentsUrl; headers := []; body := None |}.

Definition searchScope : string := "https://search.azure.com/.default".

(** The array returned by the [catch] branch of [fetchEarthAtNightDocuments]. *)
Definition fallbackDocuments : list EarthAtNightDocument :=
  [ {| id := Str "1";
       page_chunk := Str "The Earth at night reveals the patterns of human settlement and economic activity. City lights trace the contours of civilization, creating a luminous map of where people live and work.";
       page_embedding_text_3_large := Array_fill 3072 (Num (1 # 10));
       page_number := Num 1 |};
    {| id := Str "2";
       page_chunk := Str "From space, the aurora borealis appears as shimmering curtains of green and blue light dancing across the polar regions.";
       page_embedding_text_3_large := Array_fill 3072 (Num (2 # 10));
       page_number := Num 2 |} ].

Definition followUpQuestion : string := "How do I find lava at night?".

Definition firstQuestion : string :=
  "Why do suburban belts display larger December brightening than urban cores even though absolute light levels are higher downtown? Why is the Phoenix nighttime street grid is so sharply visible from space, whereas large stretches of the interstate between midwestern cities remain comparatively dim?".

Definition dquote : string := String (ascii_of_nat 34) EmptyString.

Definition systemPrompt : string :=
  "A Q&A agent that can answer questions about the Earth at night.
Sources have a JSON format with a ref_id that must be cited in the answer.
If you do not have the answer, respond with " +:+ dquote +:+ "I don't know" +:+ dquote +:+ ".".

Definition answerInstructions_literal : string :=
  "Provide a two sentence concise and informative answer based on the retrieved documents.".

Section App.
Context {W : Type} {world : World W}.
Variable config : Config.
(** [JSON.stringify] on a parsed value: a built-in, taken as given. *)
Variable JSON_stringify : value -> string.

(** The callback of [documents.map] in [fetchEarthAtNightDocuments]:
<<
    (doc: any, index: number) => ({
        id: doc.id || String(index + 1),
        page_chunk: doc.page_chunk || doc.content || '',
        page_embedding_text_3_large: doc.page_embedding_text_3_large || new Array(3072).fill(0.1),
        page_number: doc.page_number || index + 1
    })
>> *)
Definition normalize (doc : value) (index : nat) : M W EarthAtNightDocument :=
  doc_id ← lift (get doc "id");
  doc_page_chunk ← lift (get doc "page_chunk");
  chunk ← (if truthy doc_page_chunk then ret doc_page_chunk
           else doc_content ← lift (get doc "content");
                ret (or_else doc_content (Str "")));
  doc_embedding ← lift (get doc "page_embedding_text_3_large");
  doc_page_number ← lift (get doc "page_number");
  ret {| id := or_else doc_id (Str (to_String (index + 1)));
         page_chunk := chunk;
         page_embedding_text_3_large := or_else doc_embedding (Array_fill 3072 (Num (1 # 10)));
         page_number := or_else doc_page_number (of_nat (index + 1)) |}.

(** [elems.map(f)], with the position handed to the callback. *)
Fixpoint map_indexed {A B} (f : A -> nat -> M W B) (elems : list A) (index : nat) : M W (list B) :=
  match elems with
  | [] => ret []
  | x :: rest =>
      y ← f x index;
      ys ← map_indexed f rest (S index);
      ret (y :: ys)
  end.

(** [documents.map(f)] on a value of any shape: only arrays have [map]. *)
Definition Array_map {B} (documents : value) (f : value -> nat -> M W B) : M W (list B) :=
  match documents with
  | Arr elems => map_indexed f elems 0%nat
  | _ => throw (TypeError "documents.map is not a function")
  end.

Definition fetchEarthAtNightDocuments : M W (list EarthAtNightDocument) :=
  try_catch
    (response ← fetch documentsRequest;
     if negb (ok response)
     then throw (Error ("Failed to fetch documents: " +:+ show_Z (status response) +:+ " " +:+ statusText response))
     else
       documents ← response_json response;
       (* `Fetched ${documents.length} documents` *)
       _ ← lift (get documents "length");
       Array_map documents normalize)
    (fun error => ret fallbackDocuments).

Definition getAccessToken (scope : string) : M W string := getToken scope.

Definition knowledgeSourceUrl : string :=
  searchEndpoint config +:+ "/knowledgesources/" +:+ knowledgeSourceName config
    +:+ "?api-version=" +:+ searchApiVersion config.

Definition knowledgeSourcesUrl : string :=
  searchEndpoint config +:+ "/knowledgesources?api-version=" +:+ searchApiVersion config.

Definition knowledgeBaseUrl : string :=
  searchEndpoint config +:+ "/knowledgebases/" +:+ knowledgeBaseName config
    +:+ "?api-version=" +:+ searchApiVersion config.

Definition retrieveUrl : string :=
  searchEndpoint config +:+ "/knowledgebases/" +:+ knowledgeBaseName config
    +:+ "/retrieve?api-version=" +:+ searchApiVersion config.

Definition authorization (token : string) : string * string :=
  ("Authorization", "Bearer " +:+ token).

Definition contentTypeJson : string * string := ("Content-Type", "application/json").

Definition knowledgeSourceDefinition_literal : knowledgeSourceDefinition :=
  {| ks_name := knowledgeSourceName config;
     ks_description := "Knowledge source for Earth at Night e-book content";
     ks_kind := "searchIndex";
     ks_searchIndexName := indexName config;
     ks_sourceDataFields := [ {| name := "id" |}; {| name := "page_number" |} ] |}.

Definition probeSource (token : string) : request :=
  {| req_method := GET; url := knowledgeSourceUrl; headers := [authorization token]; body := None |}.

Definition postSource (token : string) : request :=
  {| req_method := POST; url := knowledgeSourcesUrl;
     headers := [contentTypeJson; authorization token];
     body := Some (SourceBody knowledgeSourceDefinition_literal) |}.

Definition createKnowledgeSource : M W unit :=
  try_catch
    (token ← getAccessToken searchScope;
     getResponse ← fetch (probeSource token);
     if ok getResponse then ret tt
     else
       response ← fetch (postSource token);
       if negb (ok response)
       then
         errorText ← response_text response;
         throw (Error ("Failed to create knowledge source: " +:+ show_Z (status response)
                         +:+ " " +:+ statusText response +:+ "
" +:+ errorText))
       else ret tt)
    (fun error => throw error).

(** The object literal [knowledgeBaseDefinition].  The source writes the
    answer instructions as a literal ([answerInstructions_literal]); they are
    a parameter here so that two registrations with different instructions
    can be compared. *)
Definition knowledgeBaseDefinition_of (answerInstructions : string) : knowledgeBaseDefinition :=
  {| kb_name := knowledgeBaseName config;
     kb_knowledgeSources := [ {| name := knowledgeSourceName config |} ];
     kb_models := [ {| resourceUri := azureOpenAIEndpoint config;
                       deploymentId := azureOpenAIGptDeployment config;
                       modelName := azureOpenAIGptModel config |} ];
     kb_outputMode := "answerSynthesis";
     kb_answerInstructions := answerInstructions |}.

Definition probeBase (token : string) : request :=
  {| req_method := GET; url := knowledgeBaseUrl; headers := [authorization token]; body := None |}.

Definition putBase (token : string) (answerInstructions : string) : request :=
  {| req_method := PUT; url := knowledgeBaseUrl;
     headers := [contentTypeJson; authorization token];
     body := Some (BaseBody (knowledgeBaseDefinition_of answerInstructions)) |}.

Definition createKnowledgeBaseWith (answerInstructions : string) : M W unit :=
  try_catch
    (token ← getAccessToken searchScope;
     getResponse ← fetch (probeBase token);
     response ← fetch (putBase token answerInstructions);
     if negb (ok response)
     then
       errorText ← response_text response;
       throw (Error ("Failed to create knowledge base: " +:+ show_Z (status response)
                       +:+ " " +:+ statusText response +:+ "
" +:+ errorText))
     else
       (* `${getResponse.ok ? 'updated' : 'created'} successfully` *)
       ret tt)
    (fun error => throw error).

Definition createKnowledgeBase : M W unit :=
  createKnowledgeBaseWith answerInstructions_literal.

(** [msg => ({ role: msg.role, content: [{ type: "text", text: msg.content }] })] *)
Definition toAgentMessage (msg : KnowledgeAgentMessage) : agentMessage :=
  {| am_role := msg_role msg; am_text := content msg |}.

Definition retrievalRequest_of (msgs : list KnowledgeAgentMessage) : retrievalRequest :=
  {| messages := map toAgentMessage msgs;
     sourceParams := [ {| knowledgeSourceName_ := knowledgeSourceName config;
                          kind_ := "searchIndex";
                          includeReferences := true;
                          includeReferenceSourceData := true;
                          alwaysQuerySource := true;
                          rerankerThreshold := 25 # 10 |} ];
     includeActivity := true;
     retrievalReasoningEffort := "low" |}.

Definition postRetrieve (token : string) (msgs : list KnowledgeAgentMessage) : request :=
  {| req_method := POST; url := retrieveUrl;
     headers := [contentTypeJson; authorization token];
     body := Some (RetrievalBody (retrievalRequest_of msgs)) |}.

Definition callAgenticRetrieval (msgs : list KnowledgeAgentMessage) : M W value :=
  token ← getAccessToken searchScope;
  response ← fetch (postRetrieve token msgs);
  if negb (ok response)
  then
    errorText ← response_text response;
    throw (Error ("Agentic retrieval failed: " +:+ show_Z (status response)
                    +:+ " " +:+ statusText response +:+ "
" +:+ errorText))
  else response_json response.

Definition extractAssistantContent (response : value) : string :=
  match response with
  | Str s => s
  | Arr _ => JSON_stringify response
  | _ => ""
  end.

(** [m => m.role !== "system"] *)
Definition not_system (m : KnowledgeAgentMessage) : bool :=
  match msg_role m with system => false | _ => true end.

(** [list.forEach(item => { ... item.k1 || item.k2 || ... })]: the first
    property read is the only step that can raise. *)
Fixpoint forEach_read (k : string) (items : list value) : M W unit :=
  match items with
  | [] => ret tt
  | item :: rest => _ ← lift (get item k); forEach_read k rest
  end.

Definition printActivities (response : value) : M W unit :=
  activity ← lift (get response "activity");
  match activity with
  | Arr items => forEach_read "activityType" items
  | _ => ret tt
  end.

Definition printReferences (response : value) : M W unit :=
  references ← lift (get response "references");
  match references with
  | Arr items => forEach_read "referenceType" items
  | _ => ret tt
  end.

(** [messages] is a JS array that the function extends in place with [push];
    the embedding passes the array in and returns its final contents. *)
Definition continueConversation (msgs : list KnowledgeAgentMessage)
  : M W (list KnowledgeAgentMessage) :=
  let msgs := msgs ++ [ {| msg_role := user; content := followUpQuestion |} ] in
  try_catch
    (let userAssistantMessages := List.filter not_system msgs in
     newRetrievalResponse ← callAgenticRetrieval userAssistantMessages;
     response ← lift (get newRetrievalResponse "response");
     let assistantContent := extractAssistantContent response in
     let msgs := msgs ++ [ {| msg_role := assistant; content := assistantContent |} ] in
     printActivities newRetrievalResponse ;;
     printReferences newRetrievalResponse ;;
     ret msgs)
    (fun error => throw error).

Definition initialMessages : list KnowledgeAgentMessage :=
  [ {| msg_role := system; content := systemPrompt |};
    {| msg_role := user; content := firstQuestion |} ].

Definition runAgenticRetrieval : M W (list KnowledgeAgentMessage) :=
  let msgs := initialMessages in
  try_catch
    (let userMessages := List.filter not_system msgs in
     retrievalResponse ← callAgenticRetrieval userMessages;
     response ← lift (get retrievalResponse "response");
     let assistantContent := extractAssistantContent response in
     let msgs := msgs ++ [ {| msg_role := assistant; content := assistantContent |} ] in
     printActivities retrievalResponse ;;
     printReferences retrievalResponse ;;
     continueConversation msgs)
    (fun error => throw error).

End App.

(** ** The flat quickstart scripts *)

Section Scripts.
Context {W : Type} {world : World W}.

(** The fetch step every flat script starts from:
<<
    const response = await fetch("https://.../documents.json");
    if (!response.ok) {
        throw new Error(`Failed to fetch documents: ${response.status} ${response.statusText}`);
    }
    const documents = await response.json() as any[];
>> *)
Definition fetchDocuments : M W value :=
  response ← fetch documentsRequest;
  if negb (ok response)
  then throw (Error ("Failed to fetch documents: " +:+ show_Z (status response) +:+ " " +:+ statusText response))
  else response_json response.

(** The four [bufferedClient.on(...)] registrations. *)
Definition registerHandlers : M W unit :=
  sdk (On "batchAdded") ;;
  sdk (On "beforeDocumentSent") ;;
  sdk (On "batchSucceeded") ;;
  sdk (On "batchFailed").

(** [retrievalRequest] and [retrievalRequest2] of the flat scripts: one user
    message holding the query. *)
Definition singleQuery (query : string) : retrievalRequest :=
  {| messages := [ {| am_role := user; am_text := query |} ];
     sourceParams := [ {| knowledgeSourceName_ := "earth-knowledge-source";
                          kind_ := "searchIndex";
                          includeReferences := true;
                          includeReferenceSourceData := true;
                          alwaysQuerySource := true;
                          rerankerThreshold := 25 # 10 |} ];
     includeActivity := true;
     retrievalReasoningEffort := "low" |}.

Definition query1 : string := firstQuestion.
Definition query2 : string := followUpQuestion.

(** Registration, the two queries and the clean-up, through the SDK. *)
Definition registerQueryCleanUp : M W unit :=
  sdk SdkCreateKnowledgeSource ;;
  sdk SdkCreateKnowledgeBase ;;
  sdk (RetrieveKnowledge (singleQuery query1)) ;;
  sdk (RetrieveKnowledge (singleQuery query2)) ;;
  sdk DeleteKnowledgeBase ;;
  sdk DeleteKnowledgeSource ;;
  sdk DeleteIndex.

(** The script that flushes, disposes and polls (the second program of
    part_007; part_004 is its JavaScript twin). *)
Definition quickstart (fuel : nat) : M W unit :=
  sdk CreateOrUpdateIndex ;;
  documents ← fetchDocuments;
  sdk (NewBufferedSender true) ;;
  registerHandlers ;;
  sdk (UploadDocuments documents) ;;
  sdk Flush ;;
  sdk Dispose ;;
  awaitIndexing fuel documents ;;
  registerQueryCleanUp.

(** src/src/index.ts: no flush, no dispose, one fixed wait. *)
Definition index_ts : M W unit :=
  sdk CreateOrUpdateIndex ;;
  documents ← fetchDocuments;
  sdk (NewBufferedSender true) ;;
  registerHandlers ;;
  sdk (UploadDocuments documents) ;;
  delay 4000 ;;
  registerQueryCleanUp.

(** The part of [quickstart] up to and including [bufferedClient.flush()]. *)
Definition uploadAndFlush : M W value :=
  sdk CreateOrUpdateIndex ;;
  documents ← fetchDocuments;
  sdk (NewBufferedSender true) ;;
  registerHandlers ;;
  sdk (UploadDocuments documents) ;;
  sdk Flush ;;
  ret documents.

End Scripts.

(** ** Observations on a run *)

Definition result_of {W A} (r : outcome A * list event * W) : outcome A := r.1.1.
Definition trace_of {W A} (r : outcome A * list event * W) : list event := r.1.2.
Definition world_of {W A} (r : outcome A * list event * W) : W := r.2.

Definition is_dispose (e : event) : bool :=
  match e with EvSdk Dispose => true | _ => false end.

(** How many times [bufferedClient.dispose()] was invoked. *)
Definition disposals (tr : list event) : nat := List.length (List.filter is_dispose tr).

(** The requests a run sent, in order. *)
Fixpoint requests (tr : list event) : list request :=
  match tr with
  | [] => []
  | EvFetch req :: rest => req :: requests rest
  | _ :: rest => requests rest
  end.


(** The counts a run read, in order. *)
Fixpoint reads (tr : list event) : list Z :=
  match tr with
  | [] => []
  | EvGetDocumentsCount c :: rest => c :: reads rest
  | _ :: rest => reads rest
  end.

(** The trace of a monitor that read the [stale] counts, one after the
    other, and then [final]. *)
Definition polling (stale : list Z) (final : Z) : list event :=
  EvDelay WAIT_TIME
    :: flat_map (fun c => [EvGetDocumentsCount c; EvDelay WAIT_TIME]) stale
    ++ [EvGetDocumentsCount final].

(** A transport outcome the document source cannot use: the fetch rejected,
    the response is not a success, the body is not JSON, the JSON is not an
    array, or the array holds a null record. *)
Definition unusable (o : exn + response) : bool :=
  match o with
  | inl _ => true
  | inr r =>
      negb (ok r)
      || match json r with
         | None => true
         | Some (Arr elems) => existsb nullish elems
         | Some _ => true
         end
  end.

(** ** Concrete worlds *)

(** A payload of two records. *)
Definition sampleRecords : list value :=
  [ Obj [("id", Str "1"); ("page_chunk", Str "City lights."); ("page_number", Num 1)];
    Obj [("id", Str "2"); ("page_chunk", Str "Aurora."); ("page_number", Num 2)] ].

(** A world whose answers are fixed in advance: the k-th count read answers
    [sc_counts k]; the other calls answer by their argument. *)
Record scripted : Type := {
  sc_fetch : request -> exn + response;
  sc_getToken : string -> exn + string;
  sc_counts : nat -> exn + Z;
  sc_sdk : sdk_op -> exn + unit;
  sc_reads : nat
}.

#[export] Instance scripted_world : World scripted := {
  world_fetch req w := (sc_fetch w req, w);
  world_getToken scope w := (sc_getToken w scope, w);
  world_getDocumentsCount w :=
    (sc_counts w (sc_reads w),
     {| sc_fetch := sc_fetch w; sc_getToken := sc_getToken w; sc_counts := sc_counts w;
        sc_sdk := sc_sdk w; sc_reads := S (sc_reads w) |});
  world_sdk o w := (sc_sdk w o, w)
}.

Definition respond (st : Z) (stText : string) (payloadJson : option value) : response :=
  {| status := st; statusText := stText; text := ""; json := payloadJson |}.

(** An index that reports the counts [reports 0], [reports 1], ... and
    services that otherwise succeed, serving [documents] as the payload. *)
Definition reporting (documents : value) (reports : nat -> Z) : scripted :=
  {| sc_fetch := fun _ => inr (respond 200 "OK" (Some documents));
     sc_getToken := fun _ => inr "token";
     sc_counts := fun k => inr (reports k);
     sc_sdk := fun _ => inr tt;
     sc_reads := 0 |}.

(** The same, with [uploadDocuments] rejecting (a failed batch). *)
Definition upload_rejects (documents : value) (reports : nat -> Z) : scripted :=
  {| sc_fetch := fun _ => inr (respond 200 "OK" (Some documents));
     sc_getToken := fun _ => inr "token";
     sc_counts := fun k => inr (reports k);
     sc_sdk := fun o => match o with
                        | UploadDocuments _ => inl (Rejected "batch failed")
                        | _ => inr tt
                        end;
     sc_reads := 0 |}.

(** Every request answered by [answer]. *)
Definition answering (answer : request -> exn + response) : scripted :=
  {| sc_fetch := answer;
     sc_getToken := fun _ => inr "token";
     sc_counts := fun _ => inr 0;
     sc_sdk := fun _ => inr tt;
     sc_reads := 0 |}.

(** A reference management service: it keeps, by resource URL, the
    definition last stored there.  A GET answers 200 or 404 by presence, a
    PUT stores (create-or-replace), and a POST to the collection stores the
    definition under the URL of the source named in [cfg], answering 409 when
    one is there already. *)
Record service : Type := {
  sv_store : gmap string payload;
  sv_posts : nat
}.

Definition service_fetch (cfg : Config) (req : request) (sv : service) : (exn + response) * service :=
  match req_method req, body req with
  | GET, _ =>
      (inr (if decide (is_Some (sv_store sv !! url req))
            then respond 200 "OK" None else respond 404 "Not Found" None), sv)
  | PUT, Some b =>
      (inr (respond (if decide (is_Some (sv_store sv !! url req)) then 200 else 201) "OK" None),
       {| sv_store := <[url req := b]> (sv_store sv); sv_posts := sv_posts sv |})
  | POST, Some b =>
      if decide (is_Some (sv_store sv !! knowledgeSourceUrl cfg))
      then (inr (respond 409 "Conflict" None), sv)
      else (inr (respond 201 "Created" None),
            {| sv_store := <[knowledgeSourceUrl cfg := b]> (sv_store sv); sv_posts := S (sv_posts sv) |})
  | _, _ => (inr (respond 400 "Bad Request" None), sv)
  end.

Definition service_world (cfg : Config) : World service := {|
  world_fetch := service_fetch cfg;
  world_getToken := fun _ sv => (inr "token", sv);
  world_getDocumentsCount := fun sv => (inr 0, sv);
  world_sdk := fun _ sv => (inr tt, sv)
|}.

Definition empty_service : service := {| sv_store := ∅; sv_posts := 0 |}.

Definition demo_config : Config :=
  literal_config "https://search.example" "https://openai.example" "gpt".

(** A scripted world whose count reads all succeed and follow [reports]. *)
Definition follows (reports : nat -> Z) (w : scripted) : Prop :=
  forall j, sc_counts w j = inr (reports j).

(** A management service whose existence probe fails with [probeStatus] and
    whose create request succeeds. *)
Definition probe_fails_with (probeStatus : Z) : scripted :=
  answering (fun req => match req_method req with
                        | GET => inr (respond probeStatus "" None)
                        | _ => inr (respond 201 "Created" None)
                        end).

(** A retrieval endpoint that answers every request with the same text. *)
Definition replying (answer : string) : scripted :=
  answering (fun _ => inr (respond 200 "OK" (Some (Obj [("response", Str answer)])))).


(** The definition the reference service holds for the configured base. *)
Definition base_held (cfg : Config) (sv : service) : option knowledgeBaseDefinition :=
  match sv_store sv !! knowledgeBaseUrl cfg with
  | Some (BaseBody d) => Some d
  | _ => None
  end.

(** The error [createKnowledgeSource] throws on a create request answered
    [r]. *)
Definition createSourceFailed (r : response) : exn :=
  Error ("Failed to create knowledge source: " +:+ show_Z (status r)
           +:+ " " +:+ statusText r +:+ "
" +:+ text r).

(** The error [createKnowledgeBase] throws on a PUT answered [r]. *)
Definition createBaseFailed (r : response) : exn :=
  Error ("Failed to create knowledge base: " +:+ show_Z (status r)
           +:+ " " +:+ statusText r +:+ "
" +:+ text r).

(** Unfold one layer of the monad. *)
Ltac step_monad :=
  unfold mbind, M_bind, mret, M_ret, bind, ret, throw, pending, lift, delay, perform,
    try_catch, result_of, trace_of, world_of in *; simpl in *.

(** ** The rest of the function-based application: upload, clean-up, [main] *)

(** [s === v] for a string [s] on the left. *)
Definition strict_equal_str (s : string) (v : value) : bool :=
  match v with
  | Str s' => String.eqb s s'
  | _ => false
  end.

(** An [EarthAtNightDocument] as the object it is. *)
Definition document_value (d : EarthAtNightDocument) : value :=
  Obj [ ("id", id d);
        ("page_chunk", page_chunk d);
        ("page_embedding_text_3_large", page_embedding_text_3_large d);
        ("page_number", page_number d) ].

(** [process.env.NAME !== 'false'], the variable being unset when [None]. *)
Definition env_flag (variable : option string) : bool :=
  match variable with
  | Some s => negb (String.eqb s "false")
  | None => true
  end.

Section Lifecycle.
Context {W : Type} {world : World W}.
Variable config : Config.
Variable JSON_stringify : value -> string.
(** [error?.statusCode] and [error?.code] on a caught value: what the SDK
    put on its error object, taken as given. *)
Variable statusCode : exn -> value.
Variable code : exn -> value.

Definition handleDeleteResponse (response : response) (resourceName resourceType : string)
  : M W unit :=
  if negb (ok response)
  then
    if status response =? 404 then ret tt
    else
      errorText ← response_text response;
      throw (Error ("Failed to delete " +:+ resourceType +:+ ": " +:+ show_Z (status response)
                      +:+ " " +:+ statusText response +:+ "
" +:+ errorText))
  else ret tt.

Definition deleteBase (token : string) : request :=
  {| req_method := DELETE; url := knowledgeBaseUrl config;
     headers := [authorization token]; body := None |}.

Definition deleteSource (token : string) : request :=
  {| req_method := DELETE; url := knowledgeSourceUrl config;
     headers := [authorization token]; body := None |}.

Definition deleteKnowledgeBase : M W unit :=
  try_catch
    (token ← getAccessToken searchScope;
     response ← fetch (deleteBase token);
     handleDeleteResponse response (knowledgeBaseName config) "Knowledge base")
    (fun error => throw error).

Definition deleteKnowledgeSource : M W unit :=
  try_catch
    (token ← getAccessToken searchScope;
     response ← fetch (deleteSource token);
     handleDeleteResponse response (knowledgeSourceName config) "Knowledge source")
    (fun error => throw error).

(** [indexClient.createOrUpdateIndex(index)] inside its try/catch. *)
Definition createSearchIndex : M W unit :=
  try_catch (sdk CreateOrUpdateIndex) (fun error => throw error).

(** <<
    try { await indexClient.deleteIndex(config.indexName); }
    catch (error: any) {
        if (error?.statusCode === 404 || error?.code === 'IndexNotFound') { return; }
        throw error;
    }
>> *)
Definition deleteSearchIndex : M W unit :=
  try_catch (sdk DeleteIndex)
    (fun error =>
       if strict_equal_num 404 (statusCode error)
          || strict_equal_str "IndexNotFound" (code error)
       then ret tt
       else throw error).

(** [uploadDocuments(searchClient)]: the [result] of the upload is read for
    the log line only. *)
Definition uploadDocuments : M W unit :=
  try_catch
    (documents ← fetchEarthAtNightDocuments;
     sdk (UploadDocuments (Arr (map document_value documents))) ;;
     delay 5000)
    (fun error => throw error).

Definition prepareSearchService (uploadDocs : bool) : M W unit :=
  (if uploadDocs
   then createSearchIndex ;; uploadDocuments
   else ret tt) ;;
  createKnowledgeSource config ;;
  createKnowledgeBase config.

Definition cleanupAllResources (cleanup : bool) : M W unit :=
  if negb cleanup then ret tt
  else
    deleteKnowledgeBase ;;
    deleteKnowledgeSource ;;
    deleteSearchIndex.

(** [config.uploadDocs] and [config.cleanupResources] are the two flags. *)
Definition main (uploadDocs cleanupResources : bool) : M W unit :=
  try_catch
    (prepareSearchService uploadDocs ;;
     _ ← runAgenticRetrieval config JSON_stringify;
     cleanupAllResources cleanupResources)
    (fun error => throw error).

(** The module's last statement: [main()] inside a try/catch that ends the
    process with [process.exit(1)].  The value returned is the exit code. *)
Definition application (UPLOAD_DOCS CLEANUP_RESOURCES : option string) : M W Z :=
  try_catch
    (main (env_flag UPLOAD_DOCS) (env_flag CLEANUP_RESOURCES) ;; ret 0)
    (fun error => ret 1).

End Lifecycle.

(** ** More observations on a run *)

(** The milliseconds a run spent in [delay]. *)
Fixpoint total_delay (tr : list event) : Z :=
  match tr with
  | [] => 0
  | EvDelay ms :: rest => ms + total_delay rest
  | _ :: rest => total_delay rest
  end.

Definition is_delete (req : request) : bool :=
  match req_method req with DELETE => true | _ => false end.

Definition is_sdk (e : event) : bool :=
  match e with EvSdk _ => true | _ => false end.

(** The request carries a bearer token. *)
Definition authorized (req : request) : Prop :=
  exists token, In (authorization token) (headers req).

(** A computation that has no loop left running: it returns or throws. *)
Definition settles {W A} (m : M W A) : Prop :=
  forall w, result_of (m w) <> Pending.

(** Every event a computation records satisfies [P]. *)
Definition emits {W A} (P : event -> Prop) (m : M W A) : Prop :=
  forall w, Forall P (trace_of (m w)).

(** The error [handleDeleteResponse] throws on a DELETE answered [r]. *)
Definition deleteFailed (resourceType : string) (r : response) : exn :=
  Error ("Failed to delete " +:+ resourceType +:+ ": " +:+ show_Z (status r)
           +:+ " " +:+ statusText r +:+ "
" +:+ text r).

(** The error [callAgenticRetrieval] throws on a request answered [r]. *)
Definition retrievalFailed (r : response) : exn :=
  Error ("Agentic retrieval failed: " +:+ show_Z (status r)
           +:+ " " +:+ statusText r +:+ "
" +:+ text r).

(** What each stage of [main] may do to the outside. *)
Inductive uploads : event -> Prop :=
| uploads_index : uploads (EvSdk CreateOrUpdateIndex)
| uploads_fetch : uploads (EvFetch documentsRequest)
| uploads_documents documents : uploads (EvSdk (UploadDocuments documents))
| uploads_wait : uploads (EvDelay 5000).

Inductive registers (config : Config) : event -> Prop :=
| registers_token : registers config (EvGetToken searchScope)
| registers_probeSource token : registers config (EvFetch (probeSource config token))
| registers_postSource token : registers config (EvFetch (postSource config token))
| registers_probeBase token : registers config (EvFetch (probeBase config token))
| registers_putBase token :
    registers config (EvFetch (putBase config token answerInstructions_literal)).

Inductive converses (config : Config) : event -> Prop :=
| converses_token : converses config (EvGetToken searchScope)
| converses_retrieve token msgs :
    forallb not_system msgs = true ->
    converses config (EvFetch (postRetrieve config token msgs)).

Inductive cleans (config : Config) : event -> Prop :=
| cleans_token : cleans config (EvGetToken searchScope)
| cleans_base token : cleans config (EvFetch (deleteBase config token))
| cleans_source token : cleans config (EvFetch (deleteSource config token))
| cleans_index : cleans config (EvSdk DeleteIndex).

(** The event deletes something. *)
Definition deletes (e : event) : Prop :=
  match e with
  | EvFetch req => is_delete req = true
  | EvSdk DeleteIndex | EvSdk DeleteKnowledgeBase | EvSdk DeleteKnowledgeSource => True
  | _ => False
  end.

(** The event is a read of the document count, answered or not. *)
Definition is_read (e : event) : bool :=
  match e with
  | EvGetDocumentsCount _ | EvGetDocumentsCountFailed => true
  | _ => false
  end.

(** The event is a flush or a dispose of the buffered sender. *)
Definition is_release (e : event) : bool :=
  match e with
  | EvSdk Flush | EvSdk Dispose => true
  | _ => false
  end.

(** An index whose reads answer the counts of [answers], one after the
    other, and reject with [e] from then on. *)
Definition failing_after (answers : list Z) (e : exn) : scripted :=
  {| sc_fetch := fun _ => inr (respond 200 "OK" None);
     sc_getToken := fun _ => inr "token";
     sc_counts := fun k => match answers !! k with Some c => inr c | None => inl e end;
     sc_sdk := fun _ => inr tt;
     sc_reads := 0 |}.

(** The SDK calls the flat scripts make once the documents are indexed:
    registration, the queries and the clean-up. *)
Definition after_indexing (o : sdk_op) : bool :=
  match o with
  | SdkCreateKnowledgeSource | SdkCreateKnowledgeBase | RetrieveKnowledge _
  | DeleteKnowledgeBase | DeleteKnowledgeSource | DeleteIndex => true
  | _ => false
  end.

(** An SDK error object that carries [statusCode] 404. *)
Definition notFound : exn := Rejected "404".

Definition statusCode_of (e : exn) : value :=
  match e with
  | Rejected "404" => Num 404
  | _ => Undefined
  end.

Definition code_of (e : exn) : value := Undefined.

(** A management service on which nothing exists any more: every DELETE is
    answered 404 and [deleteIndex] rejects with a 404 error. *)
Definition all_gone : scripted :=
  {| sc_fetch := fun req => match req_method req with
                            | DELETE => inr (respond 404 "Not Found" None)
                            | _ => inr (respond 200 "OK" None)
                            end;
     sc_getToken := fun _ => inr "token";
     sc_counts := fun _ => inr 0;
     sc_sdk := fun o => match o with DeleteIndex => inl notFound | _ => inr tt end;
     sc_reads := 0 |}.

(** * Properties *)

Lemma strict_equal_num_of_nat (c : Z) (n : nat) :
  strict_equal_num c (of_nat n) = (c =? Z.of_nat n).
Proof.
  unfold strict_equal_num, of_nat, Qeq_bool. simpl.
  now rewrite !Z.mul_1_r.
Qed.

Section MonitorFacts.
Context {W : Type} {world : World W}.

(** One more turn of the loop, spelled out. *)
Lemma poll_unfold (fuel : nat) (expected : value) (count : Z) (w : W) :
  poll (S fuel) expected count w =
  if strict_equal_num count expected then (Returned count, [], w)
  else match world_getDocumentsCount w with
       | (inr c, w1) =>
           let r := poll fuel expected c w1 in
           (result_of r, EvDelay WAIT_TIME :: EvGetDocumentsCount c :: trace_of r, world_of r)
       | (inl e, w1) => (Thrown e, [EvDelay WAIT_TIME; EvGetDocumentsCountFailed], w1)
       end.
Proof.
  simpl. destruct (strict_equal_num count expected); [reflexivity|].
  unfold getDocumentsCount. step_monad.
  destruct (world_getDocumentsCount w) as [[e|c] w1]; [reflexivity|].
  destruct (poll fuel expected c w1) as [[[a|e|] t] w2]; reflexivity.
Qed.

Lemma poll_zero (expected : value) (count : Z) (w : W) :
  poll 0 expected count w =
  if strict_equal_num count expected then (Returned count, [], w) else (Pending, [], w).
Proof. simpl. destruct (strict_equal_num count expected); reflexivity. Qed.

(** When the loop exits, the count it holds is the expected one, and what it
    did since the read of [count] is: wait, read, for each stale count. *)
Lemma poll_returned (n : nat) (fuel : nat) :
  forall (count : Z) (w : W) (c : Z) (tr : list event) (w' : W),
    poll fuel (of_nat n) count w = (Returned c, tr, w') ->
    c = Z.of_nat n /\
    exists stale : list Z,
      Forall (fun s => s <> Z.of_nat n) stale /\
      EvGetDocumentsCount count :: tr =
        flat_map (fun s => [EvGetDocumentsCount s; EvDelay WAIT_TIME]) stale
          ++ [EvGetDocumentsCount (Z.of_nat n)].
Proof.
  induction fuel as [|fuel IH]; intros count w c tr w'.
  - rewrite poll_zero, strict_equal_num_of_nat.
    destruct (Z.eqb_spec count (Z.of_nat n)) as [->|Hne]; [|discriminate].
    intros [= <- <- <-]. split; [reflexivity|]. exists []. split; [constructor|reflexivity].
  - rewrite poll_unfold, strict_equal_num_of_nat.
    destruct (Z.eqb_spec count (Z.of_nat n)) as [->|Hne].
    + intros [= <- <- <-]. split; [reflexivity|]. exists []. split; [constructor|reflexivity].
    + destruct (world_getDocumentsCount w) as [[e|c1] w1]; [discriminate|].
      destruct (poll fuel (of_nat n) c1 w1) as [[o t] w2] eqn:Hrec.
      unfold result_of, trace_of, world_of; simpl.
      intros [= -> <- <-].
      destruct (IH _ _ _ _ _ Hrec) as [Hc [stale [Hstale Htr]]].
      split; [exact Hc|]. exists (count :: stale). split; [constructor; assumption|].
      simpl. now rewrite <- Htr.
Qed.

(** Fuel is only a horizon: once the loop has ended within [fuel] turns,
    more fuel changes nothing. *)
Lemma poll_fuel_mono (extra : nat) (expected : value) (fuel : nat) :
  forall (count : Z) (w : W),
    result_of (poll fuel expected count w) <> Pending ->
    poll (fuel + extra) expected count w = poll fuel expected count w.
Proof.
  induction fuel as [|fuel IH]; intros count w.
  - rewrite poll_zero. destruct extra as [|extra]; cbn [Nat.add].
    + now rewrite poll_zero.
    + rewrite poll_unfold.
      destruct (strict_equal_num count expected); [reflexivity|].
      intros Hended. now contradiction Hended.
  - cbn [Nat.add]. rewrite !poll_unfold.
    destruct (strict_equal_num count expected); [reflexivity|].
    destruct (world_getDocumentsCount w) as [[e|c] w1]; [reflexivity|].
    cbv zeta. unfold result_of at 1. cbn [fst].
    intros Hended. now rewrite (IH c w1 Hended).
Qed.

End MonitorFacts.

(** C1. For every document set D and every world, when the convergence
    monitor returns, the count it read last equals |D|; its trace is the
    initial wait of 4000 ms, then, for each count read that differed from
    |D|, that read followed by a wait of 4000 ms, then the read of |D|.
    Every wait is of 4000 ms exactly, and there is one wait per read. *)
Theorem C1_monitor_returns_on_expected_count
  {W : Type} {world : World W} (D : list value) (fuel : nat) (w : W)
  (c : Z) (tr : list event) (w' : W) :
  awaitIndexing fuel (Arr D) w = (Returned c, tr, w') ->
  c = Z.of_nat (List.length D) /\
  exists stale : list Z,
    Forall (fun s => s <> Z.of_nat (List.length D)) stale /\
    tr = EvDelay 4000
           :: flat_map (fun s => [EvGetDocumentsCount s; EvDelay 4000]) stale
           ++ [EvGetDocumentsCount (Z.of_nat (List.length D))] /\
    last (reads tr) = Some (Z.of_nat (List.length D)) /\
    total_delay tr = 4000 * Z.of_nat (List.length (reads tr)).
Proof.
  unfold awaitIndexing, getDocumentsCount. step_monad.
  destruct (world_getDocumentsCount w) as [[e|c0] w1]; [discriminate|].
  destruct (poll fuel _ c0 w1) as [[o t] w2] eqn:Hpoll.
  intros [= -> <- <-].
  change (Num (inject_Z (Z.of_nat (List.length D)))) with (of_nat (List.length D)) in Hpoll.
  destruct (poll_returned _ _ _ _ _ _ _ Hpoll) as [Hc [stale [Hstale Htr]]].
  split; [exact Hc|]. exists stale. split; [exact Hstale|].
  assert (Hshape : EvDelay WAIT_TIME :: EvGetDocumentsCount c0 :: t
                   = EvDelay 4000
                       :: flat_map (fun s => [EvGetDocumentsCount s; EvDelay 4000]) stale
                       ++ [EvGetDocumentsCount (Z.of_nat (List.length D))]).
  { change WAIT_TIME with 4000 in Htr |- *. now rewrite <- Htr. }
  split; [exact Hshape|].
  rewrite Hshape. clear. split.
  - cbn [reads]. induction stale as [|s stale IH]; [reflexivity|].
    cbn [flat_map app reads]. destruct (reads _) eqn:E; [discriminate IH|]. exact IH.
  - cbn [total_delay reads]. induction stale as [|s stale IH]; [reflexivity|].
    cbn [flat_map app total_delay reads List.length] in IH |- *. lia.
Qed.

Lemma C1_monitor_returns_on_expected_count_witness :
  awaitIndexing 5 (Arr sampleRecords)
      (reporting (Arr sampleRecords) (fun k => Z.of_nat k))
    = (Returned 2,
       [EvDelay 4000; EvGetDocumentsCount 0; EvDelay 4000;
        EvGetDocumentsCount 1; EvDelay 4000; EvGetDocumentsCount 2],
       world_of (awaitIndexing 5 (Arr sampleRecords)
                   (reporting (Arr sampleRecords) (fun k => Z.of_nat k))))
  /\ (2 = Z.of_nat (List.length sampleRecords) /\
      exists stale : list Z,
        Forall (fun s => s <> Z.of_nat (List.length sampleRecords)) stale /\
        [EvDelay 4000; EvGetDocumentsCount 0; EvDelay 4000;
         EvGetDocumentsCount 1; EvDelay 4000; EvGetDocumentsCount 2]
        = EvDelay 4000
            :: flat_map (fun s => [EvGetDocumentsCount s; EvDelay 4000]) stale
            ++ [EvGetDocumentsCount (Z.of_nat (List.length sampleRecords))] /\
        last (reads [EvDelay 4000; EvGetDocumentsCount 0; EvDelay 4000;
                     EvGetDocumentsCount 1; EvDelay 4000; EvGetDocumentsCount 2])
        = Some (Z.of_nat (List.length sampleRecords)) /\
        total_delay [EvDelay 4000; EvGetDocumentsCount 0; EvDelay 4000;
                     EvGetDocumentsCount 1; EvDelay 4000; EvGetDocumentsCount 2]
        = 4000 * Z.of_nat (List.length
                             (reads [EvDelay 4000; EvGetDocumentsCount 0; EvDelay 4000;
                                     EvGetDocumentsCount 1; EvDelay 4000;
                                     EvGetDocumentsCount 2]))).
Proof.
  split; [reflexivity|].
  apply (C1_monitor_returns_on_expected_count sampleRecords 5
           (reporting (Arr sampleRecords) (fun k => Z.of_nat k)) 2
           [EvDelay 4000; EvGetDocumentsCount 0; EvDelay 4000;
            EvGetDocumentsCount 1; EvDelay 4000; EvGetDocumentsCount 2]
           (world_of (awaitIndexing 5 (Arr sampleRecords)
                        (reporting (Arr sampleRecords) (fun k => Z.of_nat k))))).
  reflexivity.
Defined.

(** ** The monitor against an index that reports a given sequence of counts *)

Lemma result_of_run {W A} (o : outcome A) (t : list event) (w : W) :
  result_of (o, t, w) = o.
Proof. reflexivity. Qed.

Section Reports.
Variable reports : nat -> Z.
Variable n : nat.

Lemma poll_never (fuel : nat) :
  (forall j, reports j <> Z.of_nat n) ->
  forall (count : Z) (w : scripted),
    follows reports w -> count <> Z.of_nat n ->
    result_of (poll fuel (of_nat n) count w) = Pending.
Proof.
  intros Hnever. induction fuel as [|fuel IH]; intros count w Hw Hcount.
  - rewrite poll_zero, strict_equal_num_of_nat.
    destruct (Z.eqb_spec count (Z.of_nat n)); [contradiction|reflexivity].
  - rewrite poll_unfold, strict_equal_num_of_nat.
    destruct (Z.eqb_spec count (Z.of_nat n)); [contradiction|].
    simpl. rewrite (Hw (sc_reads w)). simpl. rewrite result_of_run.
    apply IH; [intro j; apply Hw | apply Hnever].
Qed.

(** With the expected count at position [k] of the sequence and the loop
    about to read position [sc_reads w <= k], [k - sc_reads w + 1] turns are
    enough. *)
Lemma poll_reaches (k : nat) :
  reports k = Z.of_nat n ->
  forall (fuel : nat) (count : Z) (w : scripted),
    follows reports w -> (sc_reads w <= k)%nat -> (k < sc_reads w + fuel)%nat ->
    result_of (poll fuel (of_nat n) count w) = Returned (Z.of_nat n).
Proof.
  intros Hk. induction fuel as [|fuel IH]; intros count w Hw Hle Hlt; [lia|].
  rewrite poll_unfold, strict_equal_num_of_nat.
  destruct (Z.eqb_spec count (Z.of_nat n)) as [->|Hne]; [reflexivity|].
  simpl. rewrite (Hw (sc_reads w)). simpl. rewrite result_of_run.
  destruct (decide (sc_reads w = k)) as [Heq|Hneq].
  - rewrite Heq, Hk.
    destruct fuel; [rewrite poll_zero | rewrite poll_unfold];
      rewrite strict_equal_num_of_nat, Z.eqb_refl; reflexivity.
  - apply IH; [intro j; apply Hw | simpl; lia | simpl; lia].
Qed.

Lemma poll_returned_from_reports (fuel : nat) :
  forall (count : Z) (w : scripted) (c : Z),
    follows reports w ->
    result_of (poll fuel (of_nat n) count w) = Returned c ->
    count = Z.of_nat n \/ exists j, reports j = Z.of_nat n.
Proof.
  induction fuel as [|fuel IH]; intros count w c Hw.
  - rewrite poll_zero, strict_equal_num_of_nat.
    destruct (Z.eqb_spec count (Z.of_nat n)); [now left | discriminate].
  - rewrite poll_unfold, strict_equal_num_of_nat.
    destruct (Z.eqb_spec count (Z.of_nat n)); [now left|].
    simpl. rewrite (Hw (sc_reads w)). simpl. rewrite result_of_run. intros Hret.
    apply IH in Hret; [|intro j; apply Hw].
    destruct Hret as [Hc|Hj]; [|now right].
    right. now exists (sc_reads w).
Qed.

End Reports.

Lemma awaitIndexing_reporting (fuel : nat) (D : list value) (reports : nat -> Z) :
  result_of (awaitIndexing fuel (Arr D) (reporting (Arr D) reports))
  = result_of (poll fuel (of_nat (List.length D)) (reports 0%nat)
                 {| sc_fetch := sc_fetch (reporting (Arr D) reports);
                    sc_getToken := sc_getToken (reporting (Arr D) reports);
                    sc_counts := sc_counts (reporting (Arr D) reports);
                    sc_sdk := sc_sdk (reporting (Arr D) reports);
                    sc_reads := 1 |}).
Proof.
  unfold awaitIndexing, getDocumentsCount. step_monad.
  change (Num (inject_Z (Z.of_nat (List.length D)))) with (of_nat (List.length D)).
  destruct (poll fuel _ _ _) as [[o t] w2]. reflexivity.
Qed.

(** C2. The monitor has no retry ceiling: against an index whose reported
    counts never equal |D| (larger counts included) it is still polling after
    any number of turns; and it returns after finitely many polls exactly
    when some reported count equals |D|. *)
Theorem C2_monitor_unbounded (D : list value) (reports : nat -> Z) :
  ((forall k, reports k <> Z.of_nat (List.length D)) ->
   forall fuel,
     result_of (awaitIndexing fuel (Arr D) (reporting (Arr D) reports)) = Pending)
  /\
  ((exists fuel c,
      result_of (awaitIndexing fuel (Arr D) (reporting (Arr D) reports)) = Returned c)
   <-> exists k, reports k = Z.of_nat (List.length D)).
Proof.
  split; [|split].
  - intros Hnever fuel. rewrite awaitIndexing_reporting.
    apply (poll_never reports); [exact Hnever | intro j; reflexivity | apply Hnever].
  - intros (fuel & c & Hret). rewrite awaitIndexing_reporting in Hret.
    apply (poll_returned_from_reports reports) in Hret; [|intro j; reflexivity].
    destruct Hret as [H0|Hj]; [now exists 0%nat | exact Hj].
  - intros [k Hk]. exists (S k), (Z.of_nat (List.length D)).
    rewrite awaitIndexing_reporting.
    destruct k as [|k].
    + rewrite poll_unfold, strict_equal_num_of_nat, Hk, Z.eqb_refl. reflexivity.
    + apply (poll_reaches reports _ (S k) Hk); [intro j; reflexivity | simpl; lia | simpl; lia].
Qed.

Lemma C2_monitor_unbounded_witness :
  (forall k : nat, (fun _ : nat => 5) k <> Z.of_nat (List.length sampleRecords))
  /\ result_of (awaitIndexing 40 (Arr sampleRecords)
                  (reporting (Arr sampleRecords) (fun _ => 5))) = Pending
  /\ (exists fuel c,
        result_of (awaitIndexing fuel (Arr sampleRecords)
                     (reporting (Arr sampleRecords) (fun k => Z.of_nat k))) = Returned c).
Proof.
  split; [intros k; cbn; lia|]. split.
  - apply (proj1 (C2_monitor_unbounded sampleRecords (fun _ => 5))). intros k; cbn; lia.
  - apply (proj2 (proj2 (C2_monitor_unbounded sampleRecords (fun k => Z.of_nat k)))).
    exists 2%nat. reflexivity.
Defined.

(** ** The document source *)

Lemma or_else_falsy (a b : value) : truthy a = false -> or_else a b = b.
Proof. unfold or_else. now intros ->. Qed.

Lemma or_else_truthy (a b : value) : truthy a = true -> or_else a b = a.
Proof. unfold or_else. now intros ->. Qed.

Lemma get_not_nullish (doc : value) (k : string) :
  nullish doc = false -> get doc k = inr (field doc k).
Proof. unfold field. destruct doc; simpl; intros; try discriminate; reflexivity. Qed.

Lemma get_nullish (doc : value) (k : string) :
  nullish doc = true -> exists e, get doc k = inl e.
Proof. destruct doc; simpl; intros; try discriminate; eauto. Qed.

Section DocumentSource.
Context {W : Type} {world : World W}.

(** On a record that is neither null nor undefined the callback returns, and
    each field is the payload's when that is truthy and the default
    otherwise. *)
Lemma normalize_returns (doc : value) (index : nat) (w : W) :
  nullish doc = false ->
  normalize doc index w =
  (Returned
     {| id := or_else (field doc "id") (Str (to_String (index + 1)));
        page_chunk := or_else (field doc "page_chunk") (or_else (field doc "content") (Str ""));
        page_embedding_text_3_large :=
          or_else (field doc "page_embedding_text_3_large") (Array_fill 3072 (Num (1 # 10)));
        page_number := or_else (field doc "page_number") (of_nat (index + 1)) |},
   [], w).
Proof.
  intros Hdoc. unfold normalize.
  rewrite !(get_not_nullish doc _ Hdoc).
  cbv [mbind M_bind mret M_ret bind ret lift].
  destruct (truthy (field doc "page_chunk")) eqn:Hchunk;
    [ rewrite (or_else_truthy (field doc "page_chunk") _ Hchunk)
    | rewrite (or_else_falsy (field doc "page_chunk") _ Hchunk) ];
    reflexivity.
Qed.

Lemma normalize_throws (doc : value) (index : nat) (w : W) :
  nullish doc = true -> exists e, normalize doc index w = (Thrown e, [], w).
Proof.
  intros Hdoc. destruct (get_nullish doc "id" Hdoc) as [e He].
  exists e. unfold normalize. rewrite He. reflexivity.
Qed.

Lemma map_indexed_normalize (elems : list value) :
  forall (index : nat) (w : W),
    (exists docs, map_indexed normalize elems index w = (Returned docs, [], w)
                  /\ existsb nullish elems = false)
    \/ (exists e, map_indexed normalize elems index w = (Thrown e, [], w)
                  /\ existsb nullish elems = true).
Proof.
  induction elems as [|doc rest IH]; intros index w.
  - left. exists []. split; reflexivity.
  - simpl. destruct (nullish doc) eqn:Hdoc.
    + right. destruct (normalize_throws doc index w Hdoc) as [e He].
      exists e. split; [|reflexivity].
      unfold mbind, M_bind, bind. now rewrite He.
    + unfold mbind, M_bind, bind. rewrite (normalize_returns doc index w Hdoc).
      destruct (IH (S index) w) as [[docs [Hrun Hnone]]|[e [Hrun Hsome]]]; rewrite Hrun.
      * left. eexists. split; [reflexivity | exact Hnone].
      * right. exists e. split; [reflexivity | exact Hsome].
Qed.

(** The function never raises: whatever the transport does, it returns. *)
Lemma fetchEarthAtNightDocuments_returns (w : W) :
  exists docs tr w', fetchEarthAtNightDocuments w = (Returned docs, tr, w').
Proof.
  unfold fetchEarthAtNightDocuments, try_catch, fetch, perform,
    mbind, M_bind, bind, Array_map, response_json.
  destruct (world_fetch _ w) as [[e|r] w1]; [simpl; eauto|].
  destruct (ok r); simpl; [|eauto].
  destruct (json r) as [documents|]; simpl; [|eauto].
  destruct documents; simpl; eauto.
  destruct (map_indexed_normalize elems 0%nat w1) as [[docs [-> _]]|[e [-> _]]];
    simpl; eauto.
Qed.

Lemma fetchEarthAtNightDocuments_falls_back (w : W) :
  unusable (world_fetch documentsRequest w).1 = true ->
  result_of (fetchEarthAtNightDocuments w) = Returned fallbackDocuments.
Proof.
  unfold fetchEarthAtNightDocuments, try_catch, fetch, perform,
    mbind, M_bind, bind, Array_map, response_json, unusable, result_of.
  destruct (world_fetch _ w) as [[e|r] w1]; [reflexivity|].
  cbn [fst].
  destruct (ok r); cbn [negb orb]; [|reflexivity].
  destruct (json r) as [documents|]; [|reflexivity].
  destruct documents; try reflexivity.
  destruct (map_indexed_normalize elems 0%nat w1) as [[docs [Hrun Hn]]|[e [Hrun Hn]]];
    intros Hbad; cbn in Hbad |- *; rewrite Hrun; [congruence | reflexivity].
Qed.

End DocumentSource.

(** C3 (as amended). [fetchEarthAtNightDocuments] never raises: in every
    world it returns; and when the transport outcome is unusable (the fetch
    rejected, a non-success response, a body that is not JSON, JSON that is
    not an array, an array with a null record) it returns the built-in
    fallback set, which holds exactly two documents, with ids "1" and "2". *)
Theorem C3_fetchEarthAtNightDocuments_fallback {W : Type} {world : World W} (w : W) :
  (exists docs tr w', fetchEarthAtNightDocuments w = (Returned docs, tr, w'))
  /\ (unusable (world_fetch documentsRequest w).1 = true ->
      result_of (fetchEarthAtNightDocuments w) = Returned fallbackDocuments)
  /\ List.length fallbackDocuments = 2%nat
  /\ map id fallbackDocuments = [Str "1"; Str "2"].
Proof.
  split; [apply fetchEarthAtNightDocuments_returns|].
  split; [apply fetchEarthAtNightDocuments_falls_back|].
  split; reflexivity.
Qed.

Lemma C3_fetchEarthAtNightDocuments_fallback_witness :
  unusable (world_fetch documentsRequest
              (answering (fun _ => inr (respond 500 "Internal Server Error" None)))).1 = true
  /\ result_of (fetchEarthAtNightDocuments
                  (answering (fun _ => inr (respond 500 "Internal Server Error" None))))
     = Returned fallbackDocuments.
Proof.
  split; [reflexivity|].
  apply (proj1 (proj2 (C3_fetchEarthAtNightDocuments_fallback
                         (answering (fun _ => inr (respond 500 "Internal Server Error" None)))))).
  reflexivity.
Defined.

(** C3 as stated fails on the fetch step of the flat scripts: on a 404 it
    throws, and so does src/src/index.ts as a whole; no fallback set is
    produced. *)
Lemma C3_counterexample :
  unusable (inr (respond 404 "Not Found" None)) = true
  /\ fetchDocuments (answering (fun _ => inr (respond 404 "Not Found" None)))
     = (Thrown (Error "Failed to fetch documents: 404 Not Found"),
        [EvFetch documentsRequest],
        answering (fun _ => inr (respond 404 "Not Found" None)))
  /\ result_of (index_ts (answering (fun _ => inr (respond 404 "Not Found" None))))
     = Thrown (Error "Failed to fetch documents: 404 Not Found").
Proof. split; [reflexivity|]. split; reflexivity. Qed.

(** C9. On every fetched record (a value that is not null) normalization
    produces a document in which a missing identifier is [String(position+1)],
    missing content is the alternate [content] field or else the empty
    string, a missing embedding is a vector of 3072 entries all 0.1, and a
    missing page ordinal is position+1. *)
Theorem C9_normalize_defaults {W : Type} {world : World W} (doc : value) (index : nat) (w : W) :
  nullish doc = false ->
  exists d : EarthAtNightDocument,
    normalize doc index w = (Returned d, [], w)
    /\ (field doc "id" = Undefined -> id d = Str (to_String (index + 1)))
    /\ (field doc "page_chunk" = Undefined ->
        page_chunk d = or_else (field doc "content") (Str "")
        /\ (field doc "content" = Undefined -> page_chunk d = Str ""))
    /\ (field doc "page_embedding_text_3_large" = Undefined ->
        exists elems,
          page_embedding_text_3_large d = Arr elems
          /\ List.length elems = 3072%nat
          /\ Forall (fun x => x = Num (1 # 10)) elems)
    /\ (field doc "page_number" = Undefined ->
        page_number d = of_nat (index + 1)).
Proof.
  intros Hdoc. eexists. split; [apply normalize_returns; exact Hdoc|].
  cbn [id page_chunk page_embedding_text_3_large page_number].
  split; [|split; [|split]].
  - intros ->. reflexivity.
  - intros ->. split; [reflexivity|]. intros ->. reflexivity.
  - intros ->. exists (repeat (Num (1 # 10)) 3072). split; [reflexivity|].
    split; [apply repeat_length|].
    apply Forall_forall. intros x Hx. apply list_elem_of_In in Hx. now apply repeat_spec in Hx.
  - intros ->. reflexivity.
Qed.

Lemma C9_normalize_defaults_witness :
  nullish (Obj []) = false
  /\ normalize (Obj []) 4 (answering (fun _ => inl (Rejected "offline")))
     = (Returned {| id := Str "5";
                    page_chunk := Str "";
                    page_embedding_text_3_large := Array_fill 3072 (Num (1 # 10));
                    page_number := Num 5 |},
        [], answering (fun _ => inl (Rejected "offline")))
  /\ exists d : EarthAtNightDocument,
       normalize (Obj []) 4 (answering (fun _ => inl (Rejected "offline")))
         = (Returned d, [], answering (fun _ => inl (Rejected "offline")))
       /\ (field (Obj []) "id" = Undefined -> id d = Str (to_String (4 + 1)))
       /\ (field (Obj []) "page_chunk" = Undefined ->
           page_chunk d = or_else (field (Obj []) "content") (Str "")
           /\ (field (Obj []) "content" = Undefined -> page_chunk d = Str ""))
       /\ (field (Obj []) "page_embedding_text_3_large" = Undefined ->
           exists elems,
             page_embedding_text_3_large d = Arr elems
             /\ List.length elems = 3072%nat
             /\ Forall (fun x => x = Num (1 # 10)) elems)
       /\ (field (Obj []) "page_number" = Undefined ->
           page_number d = of_nat (4 + 1)).
Proof.
  split; [reflexivity|]. split; [reflexivity|].
  apply (C9_normalize_defaults (Obj []) 4 (answering (fun _ => inl (Rejected "offline")))).
  reflexivity.
Defined.

(** C10. A field that is present but falsy is defaulted like a missing one:
    [page_number] 0 becomes position+1, an empty [id] becomes
    [String(position+1)], and an empty [page_chunk] becomes the alternate
    [content] field or else the empty string. *)
Theorem C10_falsy_fields_defaulted {W : Type} {world : World W} (doc : value) (index : nat) (w : W) :
  nullish doc = false ->
  exists d : EarthAtNightDocument,
    normalize doc index w = (Returned d, [], w)
    /\ (forall q, field doc "page_number" = Num q -> Qeq q 0 ->
        page_number d = of_nat (index + 1))
    /\ (field doc "id" = Str "" -> id d = Str (to_String (index + 1)))
    /\ (field doc "page_chunk" = Str "" ->
        page_chunk d = or_else (field doc "content") (Str "")).
Proof.
  intros Hdoc. eexists. split; [apply normalize_returns; exact Hdoc|].
  cbn [id page_chunk page_embedding_text_3_large page_number].
  split; [|split].
  - intros q -> Hq. apply or_else_falsy. simpl.
    apply Qeq_bool_iff in Hq. now rewrite Hq.
  - intros ->. reflexivity.
  - intros ->. reflexivity.
Qed.

Lemma C10_falsy_fields_defaulted_witness :
  normalize (Obj [("id", Str ""); ("page_chunk", Str ""); ("content", Str "night lights");
                  ("page_number", Num 0)]) 6
      (answering (fun _ => inl (Rejected "offline")))
  = (Returned {| id := Str "7";
                 page_chunk := Str "night lights";
                 page_embedding_text_3_large := Array_fill 3072 (Num (1 # 10));
                 page_number := Num 7 |},
     [], answering (fun _ => inl (Rejected "offline")))
  /\ exists d : EarthAtNightDocument,
       normalize (Obj [("id", Str ""); ("page_chunk", Str ""); ("content", Str "night lights");
                       ("page_number", Num 0)]) 6
           (answering (fun _ => inl (Rejected "offline")))
         = (Returned d, [], answering (fun _ => inl (Rejected "offline")))
       /\ (forall q,
              field (Obj [("id", Str ""); ("page_chunk", Str ""); ("content", Str "night lights");
                          ("page_number", Num 0)]) "page_number" = Num q ->
              Qeq q 0 -> page_number d = of_nat (6 + 1))
       /\ (field (Obj [("id", Str ""); ("page_chunk", Str ""); ("content", Str "night lights");
                       ("page_number", Num 0)]) "id" = Str "" ->
           id d = Str (to_String (6 + 1)))
       /\ (field (Obj [("id", Str ""); ("page_chunk", Str ""); ("content", Str "night lights");
                       ("page_number", Num 0)]) "page_chunk" = Str "" ->
           page_chunk d
           = or_else (field (Obj [("id", Str ""); ("page_chunk", Str "");
                                  ("content", Str "night lights"); ("page_number", Num 0)])
                        "content") (Str "")).
Proof.
  split; [reflexivity|].
  apply (C10_falsy_fields_defaulted
           (Obj [("id", Str ""); ("page_chunk", Str ""); ("content", Str "night lights");
                 ("page_number", Num 0)]) 6
           (answering (fun _ => inl (Rejected "offline")))).
  reflexivity.
Defined.

(** ** The buffered upload channel in the flat scripts *)

Lemma disposals_app (t1 t2 : list event) :
  disposals (t1 ++ t2) = (disposals t1 + disposals t2)%nat.
Proof. unfold disposals. now rewrite List.filter_app, length_app. Qed.

Section Channel.
Context {W : Type} {world : World W}.

Lemma sdk_run (o : sdk_op) (w : W) :
  sdk o w = match world_sdk o w with
            | (inr _, w') => (Returned tt, [EvSdk o], w')
            | (inl e, w') => (Thrown e, [EvSdk o], w')
            end.
Proof.
  unfold sdk, perform. destruct (world_sdk o w) as [[e|[]] w']; reflexivity.
Qed.

Lemma poll_no_dispose (fuel : nat) :
  forall (expected : value) (count : Z) (w : W),
    disposals (trace_of (poll fuel expected count w)) = 0%nat.
Proof.
  induction fuel as [|fuel IH]; intros expected count w.
  - rewrite poll_zero. destruct (strict_equal_num count expected); reflexivity.
  - rewrite poll_unfold. destruct (strict_equal_num count expected); [reflexivity|].
    destruct (world_getDocumentsCount w) as [[e|c] w1]; [reflexivity|].
    cbn. apply IH.
Qed.

Lemma awaitIndexing_no_dispose (fuel : nat) (documents : value) (w : W) :
  disposals (trace_of (awaitIndexing fuel documents w)) = 0%nat.
Proof.
  unfold awaitIndexing, getDocumentsCount.
  cbv [mbind M_bind bind lift delay perform ret throw].
  destruct (get documents "length") as [e|expected]; [reflexivity|].
  destruct (world_getDocumentsCount w) as [[e|c] w1]; [reflexivity|].
  pose proof (poll_no_dispose fuel expected c w1) as Hpoll.
  destruct (poll fuel expected c w1) as [[o t] w2]. exact Hpoll.
Qed.

Lemma registerQueryCleanUp_no_dispose (w : W) :
  disposals (trace_of (registerQueryCleanUp w)) = 0%nat.
Proof.
  unfold registerQueryCleanUp, sdk, perform. cbv [bind].
  repeat match goal with
         | |- context [world_sdk ?o ?w0] =>
             destruct (world_sdk o w0) as [[?|[]] ?]; try reflexivity
         end.
Qed.

(** What [quickstart] does is what it does up to the flush, then, when the
    flush returned, the dispose and the rest. *)
Lemma quickstart_split (fuel : nat) (w : W) :
  quickstart fuel w =
  match uploadAndFlush w with
  | (Returned documents, pre, w1) =>
      match (sdk Dispose ;; awaitIndexing fuel documents ;; registerQueryCleanUp) w1 with
      | (o, post, w2) => (o, pre ++ post, w2)
      end
  | (Thrown e, pre, w1) => (Thrown e, pre, w1)
  | (Pending, pre, w1) => (Pending, pre, w1)
  end.
Proof.
  unfold quickstart, uploadAndFlush, registerHandlers, fetchDocuments, fetch, sdk, perform,
    response_json.
  cbv [mbind M_bind bind ret throw].
  destruct (world_sdk CreateOrUpdateIndex w) as [[?|[]] w1]; [reflexivity|].
  destruct (world_fetch documentsRequest w1) as [[?|r] w2]; [reflexivity|].
  destruct (ok r); cbn [negb]; [|reflexivity].
  destruct (json r) as [documents|]; [|reflexivity].
  destruct (world_sdk (NewBufferedSender true) w2) as [[?|[]] w3]; [reflexivity|].
  destruct (world_sdk (On "batchAdded") w3) as [[?|[]] w4]; [reflexivity|].
  destruct (world_sdk (On "beforeDocumentSent") w4) as [[?|[]] w5]; [reflexivity|].
  destruct (world_sdk (On "batchSucceeded") w5) as [[?|[]] w6]; [reflexivity|].
  destruct (world_sdk (On "batchFailed") w6) as [[?|[]] w7]; [reflexivity|].
  destruct (world_sdk (UploadDocuments documents) w7) as [[?|[]] w8]; [reflexivity|].
  destruct (world_sdk Flush w8) as [[?|[]] w9]; [reflexivity|].
  destruct (world_sdk Dispose w9) as [[?|[]] w10]; [reflexivity|].
  destruct (awaitIndexing fuel documents w10) as [[[?|?|] ?] w11]; try reflexivity.
  destruct (registerQueryCleanUp w11) as [[o t] w12]. reflexivity.
Qed.

(** Until the flush has returned nothing was disposed, and when it returns the
    flush is the last thing that happened. *)
Lemma uploadAndFlush_trace (w : W) :
  disposals (trace_of (uploadAndFlush w)) = 0%nat
  /\ (forall documents, result_of (uploadAndFlush w) = Returned documents ->
      exists before, trace_of (uploadAndFlush w) = before ++ [EvSdk Flush]).
Proof.
  unfold uploadAndFlush, registerHandlers, fetchDocuments, fetch, sdk, perform, response_json.
  cbv [mbind M_bind bind ret throw].
  destruct (world_sdk CreateOrUpdateIndex w) as [[?|[]] w1]; [split; [reflexivity|discriminate]|].
  destruct (world_fetch documentsRequest w1) as [[?|r] w2]; [split; [reflexivity|discriminate]|].
  destruct (ok r); cbn [negb]; [|split; [reflexivity|discriminate]].
  destruct (json r) as [documents|]; [|split; [reflexivity|discriminate]].
  destruct (world_sdk (NewBufferedSender true) w2) as [[?|[]] w3]; [split; [reflexivity|discriminate]|].
  destruct (world_sdk (On "batchAdded") w3) as [[?|[]] w4]; [split; [reflexivity|discriminate]|].
  destruct (world_sdk (On "beforeDocumentSent") w4) as [[?|[]] w5]; [split; [reflexivity|discriminate]|].
  destruct (world_sdk (On "batchSucceeded") w5) as [[?|[]] w6]; [split; [reflexivity|discriminate]|].
  destruct (world_sdk (On "batchFailed") w6) as [[?|[]] w7]; [split; [reflexivity|discriminate]|].
  destruct (world_sdk (UploadDocuments documents) w7) as [[?|[]] w8]; [split; [reflexivity|discriminate]|].
  destruct (world_sdk Flush w8) as [[?|[]] w9]; [split; [reflexivity|discriminate]|].
  split; [reflexivity|]. intros _ _.
  eexists [_; _; _; _; _; _; _; _]. reflexivity.
Qed.

(** From the dispose on: the dispose comes first and is the only one. *)
Lemma dispose_and_rest (fuel : nat) (documents : value) (w : W) :
  exists o post w',
    (sdk Dispose ;; awaitIndexing fuel documents ;; registerQueryCleanUp) w
      = (o, EvSdk Dispose :: post, w')
    /\ disposals post = 0%nat.
Proof.
  cbv [bind]. rewrite sdk_run.
  destruct (world_sdk Dispose w) as [[e|u] w1].
  - exists (Thrown e), [], w1. split; reflexivity.
  - pose proof (awaitIndexing_no_dispose fuel documents w1) as Hawait.
    destruct (awaitIndexing fuel documents w1) as [[[c|e|] t] w2];
      unfold trace_of in Hawait; cbn [fst snd] in Hawait.
    + pose proof (registerQueryCleanUp_no_dispose w2) as Hrest.
      destruct (registerQueryCleanUp w2) as [[o t'] w3].
      unfold trace_of in Hrest; cbn [fst snd] in Hrest.
      exists o, (t ++ t'), w3. split; [reflexivity|].
      rewrite disposals_app. lia.
    + exists (Thrown e), t, w2. split; [reflexivity | exact Hawait].
    + exists Pending, t, w2. split; [reflexivity | exact Hawait].
Qed.

End Channel.

(** C4 (as amended). In the script that flushes and disposes, dispose is
    invoked exactly once, directly after the flush, on every run in which
    everything up to and including the flush returned (whatever happens
    later in the run); on a run in which a step up to the flush throws, the
    run ends there and dispose is not invoked. *)
Theorem C4_dispose_once_when_flush_returns {W : Type} {world : World W} (fuel : nat) (w : W) :
  match result_of (uploadAndFlush w) with
  | Returned _ =>
      disposals (trace_of (quickstart fuel w)) = 1%nat
      /\ exists before post,
           trace_of (uploadAndFlush w) = before ++ [EvSdk Flush]
           /\ trace_of (quickstart fuel w) = before ++ EvSdk Flush :: EvSdk Dispose :: post
  | _ =>
      disposals (trace_of (quickstart fuel w)) = 0%nat
      /\ quickstart fuel w = (result_of (quickstart fuel w), trace_of (uploadAndFlush w),
                              world_of (uploadAndFlush w))
      /\ result_of (quickstart fuel w) <> Returned tt
  end.
Proof.
  rewrite quickstart_split.
  destruct (uploadAndFlush_trace w) as [Hnone Hlast].
  destruct (uploadAndFlush w) as [[[documents|e|] pre] w1];
    unfold result_of, trace_of, world_of in *; cbn [fst snd] in *.
  - destruct (Hlast documents eq_refl) as [before ->]. clear Hlast.
    destruct (dispose_and_rest fuel documents w1) as (o & post & w2 & -> & Hpost).
    cbn [fst snd]. split.
    + rewrite disposals_app, Hnone.
      change (EvSdk Dispose :: post) with ([EvSdk Dispose] ++ post).
      rewrite disposals_app, Hpost. reflexivity.
    + exists before, post. split; [reflexivity|]. now rewrite <- app_assoc.
  - split; [exact Hnone|]. split; [reflexivity|discriminate].
  - split; [exact Hnone|]. split; [reflexivity|discriminate].
Qed.

(** C4 as stated fails: when [uploadDocuments] rejects (a failed batch) the
    run of the flushing script ends without any dispose, and src/src/index.ts
    completes normally without ever flushing or disposing. *)
Lemma C4_counterexample :
  result_of (quickstart 3 (upload_rejects (Arr sampleRecords) (fun _ => 2)))
    = Thrown (Rejected "batch failed")
  /\ disposals (trace_of (quickstart 3 (upload_rejects (Arr sampleRecords) (fun _ => 2)))) = 0%nat
  /\ result_of (index_ts (reporting (Arr sampleRecords) (fun _ => 2))) = Returned tt
  /\ disposals (trace_of (index_ts (reporting (Arr sampleRecords) (fun _ => 2)))) = 0%nat.
Proof. repeat split; reflexivity. Qed.

(** ** Knowledge registration *)

Section Registration.
Context {W : Type} {world : World W}.
Variable config : Config.


(** The probe answered with any other status: the create request is sent,
    and its answer alone decides how the call ends. *)
Lemma createKnowledgeSource_absent (w w1 w2 : W) (token : string) (probe : response) :
  world_getToken searchScope w = (inr token, w1) ->
  world_fetch (probeSource config token) w1 = (inr probe, w2) ->
  ok probe = false ->
  createKnowledgeSource config w
  = match world_fetch (postSource config token) w2 with
    | (inr created, w3) =>
        (if ok created then Returned tt else Thrown (createSourceFailed created),
         [EvGetToken searchScope; EvFetch (probeSource config token);
          EvFetch (postSource config token)], w3)
    | (inl e, w3) =>
        (Thrown e,
         [EvGetToken searchScope; EvFetch (probeSource config token);
          EvFetch (postSource config token)], w3)
    end.
Proof.
  intros Htoken Hprobe Hok.
  unfold createKnowledgeSource, getAccessToken, getToken, fetch, perform, try_catch,
    response_text, createSourceFailed.
  cbv [mbind M_bind bind ret throw].
  rewrite Htoken, Hprobe, Hok.
  destruct (world_fetch (postSource config token) w2) as [[e|created] w3]; [reflexivity|].
  destruct (ok created); reflexivity.
Qed.


(** Whatever the probe answers, the PUT with the full definition is sent, and
    its answer alone decides how the call ends. *)
Lemma createKnowledgeBaseWith_puts (answerInstructions : string)
  (w w1 w2 : W) (token : string) (probe : response) :
  world_getToken searchScope w = (inr token, w1) ->
  world_fetch (probeBase config token) w1 = (inr probe, w2) ->
  createKnowledgeBaseWith config answerInstructions w
  = match world_fetch (putBase config token answerInstructions) w2 with
    | (inr stored, w3) =>
        (if ok stored then Returned tt else Thrown (createBaseFailed stored),
         [EvGetToken searchScope; EvFetch (probeBase config token);
          EvFetch (putBase config token answerInstructions)], w3)
    | (inl e, w3) =>
        (Thrown e,
         [EvGetToken searchScope; EvFetch (probeBase config token);
          EvFetch (putBase config token answerInstructions)], w3)
    end.
Proof.
  intros Htoken Hprobe.
  unfold createKnowledgeBaseWith, getAccessToken, getToken, fetch, perform, try_catch,
    response_text, createBaseFailed.
  cbv [mbind M_bind bind ret throw].
  rewrite Htoken, Hprobe.
  destruct (world_fetch (putBase config token answerInstructions) w2) as [[e|stored] w3];
    [reflexivity|].
  destruct (ok stored); reflexivity.
Qed.

(** A call that returned sent its PUT last, and the PUT succeeded. *)
Lemma createKnowledgeBaseWith_returned (answerInstructions : string)
  (w w' : W) (tr : list event) :
  createKnowledgeBaseWith config answerInstructions w = (Returned tt, tr, w') ->
  exists token w2 r,
    world_fetch (putBase config token answerInstructions) w2 = (inr r, w')
    /\ ok r = true
    /\ requests tr = [probeBase config token; putBase config token answerInstructions].
Proof.
  unfold createKnowledgeBaseWith, getAccessToken, getToken, fetch, perform, try_catch,
    response_text.
  cbv [mbind M_bind bind ret throw].
  destruct (world_getToken searchScope w) as [[e|token] w1]; [discriminate|].
  destruct (world_fetch (probeBase config token) w1) as [[e|probe] w2]; [discriminate|].
  destruct (world_fetch (putBase config token answerInstructions) w2)
    as [[e|stored] w3] eqn:Hput; [discriminate|].
  destruct (ok stored) eqn:Hok; [|discriminate].
  intros [= <- <-]. exists token, w2, stored. repeat split; [exact Hput | exact Hok].
Qed.

End Registration.

(** C8 (as amended). On the existence probe of [createKnowledgeSource], a
    non-success answer of any status (404, 401 and 500 alike) leads to the
    create request; the probe's status is not surfaced.  The call throws
    exactly when the create request itself is rejected or answered with a
    non-success status. *)
Theorem C8_probe_failure_leads_to_create {W : Type} {world : World W} (config : Config)
  (w w1 w2 : W) (token : string) (probe : response) :
  world_getToken searchScope w = (inr token, w1) ->
  world_fetch (probeSource config token) w1 = (inr probe, w2) ->
  ok probe = false ->
  requests (trace_of (createKnowledgeSource config w))
    = [probeSource config token; postSource config token]
  /\ result_of (createKnowledgeSource config w)
     = match (world_fetch (postSource config token) w2).1 with
       | inr created => if ok created then Returned tt
                        else Thrown (createSourceFailed created)
       | inl e => Thrown e
       end.
Proof.
  intros Htoken Hprobe Hok.
  rewrite (createKnowledgeSource_absent config w w1 w2 token probe Htoken Hprobe Hok).
  destruct (world_fetch (postSource config token) w2) as [[e|created] w3];
    split; reflexivity.
Qed.

Lemma C8_probe_failure_leads_to_create_witness :
  ok (respond 401 "" None) = false
  /\ requests (trace_of (createKnowledgeSource demo_config (probe_fails_with 401)))
     = [probeSource demo_config "token"; postSource demo_config "token"]
  /\ result_of (createKnowledgeSource demo_config (probe_fails_with 401)) = Returned tt.
Proof.
  split; [reflexivity|].
  exact (C8_probe_failure_leads_to_create demo_config
           (probe_fails_with 401) (probe_fails_with 401) (probe_fails_with 401)
           "token" (respond 401 "" None) eq_refl eq_refl eq_refl).
Defined.

(** C8 as stated fails: with a probe answered 500 (or 401) and a create
    request answered 201, [createKnowledgeSource] returns normally, having
    sent the create request; the probe's failure is treated as absence. *)
Lemma C8_counterexample :
  createKnowledgeSource demo_config (probe_fails_with 500)
  = (Returned tt,
     [EvGetToken searchScope; EvFetch (probeSource demo_config "token");
      EvFetch (postSource demo_config "token")],
     probe_fails_with 500)
  /\ result_of (createKnowledgeSource demo_config (probe_fails_with 401)) = Returned tt.
Proof. split; reflexivity. Qed.

(** ** Registering twice *)

Section SourceIdempotence.
Context {W : Type} {world : World W}.
Variable config : Config.

(** What is assumed of the service: it holds a source of the configured name
    ([registered]) once a probe found it or a create request succeeded; a
    probe finds a source that is held and leaves the service as it is; and
    the credential grants tokens without touching the service. *)
Variable registered : W -> Prop.
Hypothesis token_granted :
  forall w, exists token, world_getToken searchScope w = (inr token, w).
Hypothesis probe_finds :
  forall token w, registered w ->
    exists r, world_fetch (probeSource config token) w = (inr r, w) /\ ok r = true.
Hypothesis found_is_registered :
  forall token w r w',
    world_fetch (probeSource config token) w = (inr r, w') -> ok r = true -> registered w'.
Hypothesis created_is_registered :
  forall token w r w',
    world_fetch (postSource config token) w = (inr r, w') -> ok r = true -> registered w'.


End SourceIdempotence.

Section BaseUpsert.
Context {W : Type} {world : World W}.
Variable config : Config.

(** What is assumed of the service: [held w] is the definition it holds for
    the configured base, and a PUT that succeeded makes it hold the
    definition that was put. *)
Variable held : W -> option knowledgeBaseDefinition.
Hypothesis put_takes_effect :
  forall token answerInstructions w r w',
    world_fetch (putBase config token answerInstructions) w = (inr r, w') ->
    ok r = true ->
    held w' = Some (knowledgeBaseDefinition_of config answerInstructions).

(** C7. Knowledge base registration is create-or-replace: whatever the
    probe answers, the call sends the PUT that carries the full latest
    definition; and of two successive calls with different instructions
    that returned, the definition of the second is the one in effect. *)
Theorem C7_createKnowledgeBase_upsert :
  (forall answerInstructions w w1 w2 token probe,
      world_getToken searchScope w = (inr token, w1) ->
      world_fetch (probeBase config token) w1 = (inr probe, w2) ->
      requests (trace_of (createKnowledgeBaseWith config answerInstructions w))
        = [probeBase config token; putBase config token answerInstructions]
      /\ body (putBase config token answerInstructions)
         = Some (BaseBody (knowledgeBaseDefinition_of config answerInstructions)))
  /\
  (forall first second w tr1 w1 tr2 w2,
      first <> second ->
      createKnowledgeBaseWith config first w = (Returned tt, tr1, w1) ->
      createKnowledgeBaseWith config second w1 = (Returned tt, tr2, w2) ->
      held w2 = Some (knowledgeBaseDefinition_of config second)
      /\ held w2 <> Some (knowledgeBaseDefinition_of config first)
      /\ exists token, last (requests tr2) = Some (putBase config token second)).
Proof.
  split.
  - intros answerInstructions w w1 w2 token probe Htoken Hprobe.
    rewrite (createKnowledgeBaseWith_puts config answerInstructions w w1 w2 token probe
               Htoken Hprobe).
    destruct (world_fetch (putBase config token answerInstructions) w2) as [[e|r] w3];
      split; reflexivity.
  - intros first second w tr1 w1 tr2 w2 Hdiff _ Hsecond.
    destruct (createKnowledgeBaseWith_returned config second w1 w2 tr2 Hsecond)
      as (token & w0 & r & Hput & Hok & Hreqs).
    rewrite (put_takes_effect token second w0 r w2 Hput Hok).
    split; [reflexivity|]. split.
    + intros [= Heq]. exact (Hdiff (eq_sym Heq)).
    + exists token. rewrite Hreqs. reflexivity.
Qed.

End BaseUpsert.

(** ** The reference service satisfies what was assumed *)

Section ReferenceService.
Variable cfg : Config.





Lemma service_put_takes_effect (token answerInstructions : string)
  (sv : service) (r : response) (sv' : service) :
  world_fetch (World := service_world cfg) (putBase cfg token answerInstructions) sv = (inr r, sv') ->
  ok r = true ->
  base_held cfg sv' = Some (knowledgeBaseDefinition_of cfg answerInstructions).
Proof.
  cbn. unfold service_fetch. cbn. intros [= _ <-] _.
  unfold base_held. cbn. now rewrite lookup_insert_eq.
Qed.

End ReferenceService.


Lemma C7_createKnowledgeBase_upsert_witness :
  "Answer in one sentence." <> "Answer in two sentences."
  /\ base_held demo_config
       (world_of (createKnowledgeBaseWith (world := service_world demo_config) demo_config
                    "Answer in two sentences."
                    (world_of (createKnowledgeBaseWith (world := service_world demo_config)
                                 demo_config "Answer in one sentence." empty_service))))
     = Some (knowledgeBaseDefinition_of demo_config "Answer in two sentences.").
Proof.
  split; [discriminate|].
  refine (proj1 (proj2 (C7_createKnowledgeBase_upsert (world := service_world demo_config)
                  demo_config (base_held demo_config)
                  (service_put_takes_effect demo_config))
           "Answer in one sentence." "Answer in two sentences."
           empty_service
           (trace_of (createKnowledgeBaseWith (world := service_world demo_config) demo_config
                        "Answer in one sentence." empty_service))
           (world_of (createKnowledgeBaseWith (world := service_world demo_config) demo_config
                        "Answer in one sentence." empty_service))
           (trace_of (createKnowledgeBaseWith (world := service_world demo_config) demo_config
                        "Answer in two sentences."
                        (world_of (createKnowledgeBaseWith (world := service_world demo_config)
                                     demo_config "Answer in one sentence." empty_service))))
           (world_of (createKnowledgeBaseWith (world := service_world demo_config) demo_config
                        "Answer in two sentences."
                        (world_of (createKnowledgeBaseWith (world := service_world demo_config)
                                     demo_config "Answer in one sentence." empty_service))))
           _ _ _)).
  - discriminate.
  - reflexivity.
  - reflexivity.
Defined.

(** ** The retrieval session *)

Section Session.
Context {W : Type} {world : World W}.
Variable config : Config.
Variable JSON_stringify : value -> string.

Lemma bind_trace {A B} (m : M W A) (f : A -> M W B) (w : W) :
  exists rest, trace_of (bind m f w) = trace_of (m w) ++ rest.
Proof.
  unfold bind, trace_of. destruct (m w) as [[[a|e|] t] w1]; cbn [fst snd].
  - destruct (f a w1) as [[o t'] w2]. now exists t'.
  - exists []. now rewrite app_nil_r.
  - exists []. now rewrite app_nil_r.
Qed.

Lemma try_catch_trace {A} (m : M W A) (handler : exn -> M W A) (w : W) :
  exists rest, trace_of (try_catch m handler w) = trace_of (m w) ++ rest.
Proof.
  unfold try_catch, trace_of. destruct (m w) as [[[a|e|] t] w1]; cbn [fst snd].
  - exists []. now rewrite app_nil_r.
  - destruct (handler e w1) as [[o t'] w2]. now exists t'.
  - exists []. now rewrite app_nil_r.
Qed.

(** Once the token is granted, the retrieval request goes out, carrying the
    messages it was called with. *)
Lemma callAgenticRetrieval_trace (msgs : list KnowledgeAgentMessage)
  (w w1 : W) (token : string) :
  world_getToken searchScope w = (inr token, w1) ->
  trace_of (callAgenticRetrieval config msgs w)
  = [EvGetToken searchScope; EvFetch (postRetrieve config token msgs)].
Proof.
  intros Htoken.
  unfold callAgenticRetrieval, getAccessToken, getToken, fetch, perform, response_text,
    response_json, trace_of.
  cbv [mbind M_bind bind ret throw]. rewrite Htoken.
  destruct (world_fetch (postRetrieve config token msgs) w1) as [[e|r] w2]; [reflexivity|].
  destruct (ok r); [|reflexivity].
  cbn [negb]. destruct (json r); reflexivity.
Qed.

Lemma continueConversation_trace (msgs : list KnowledgeAgentMessage)
  (w w1 : W) (token : string) :
  world_getToken searchScope w = (inr token, w1) ->
  exists rest,
    trace_of (continueConversation config JSON_stringify msgs w)
    = EvGetToken searchScope
        :: EvFetch (postRetrieve config token
                      (List.filter not_system
                         (msgs ++ [ {| msg_role := user; content := followUpQuestion |} ])))
        :: rest.
Proof.
  intros Htoken. unfold continueConversation.
  match goal with
  | |- context [try_catch ?m ?h w] => destruct (try_catch_trace m h w) as [rest1 ->]
  end.
  unfold mbind, M_bind.
  match goal with
  | |- context [bind ?m ?f w] => destruct (bind_trace m f w) as [rest2 ->]
  end.
  rewrite (callAgenticRetrieval_trace _ w w1 token Htoken).
  exists (rest2 ++ rest1). reflexivity.
Qed.

End Session.

(** C5. When the conversation handed to the second query holds the first
    user turn and the assistant reply to it, the request the second query
    sends carries both, in conversation order, followed by the new user
    turn. *)
Theorem C5_context_carries_forward {W : Type} {world : World W}
  (config : Config) (JSON_stringify : value -> string)
  (conversation : list KnowledgeAgentMessage) (question reply : string)
  (w w1 : W) (token : string) :
  In {| msg_role := user; content := question |} conversation ->
  In {| msg_role := assistant; content := reply |} conversation ->
  world_getToken searchScope w = (inr token, w1) ->
  exists (r : retrievalRequest) (rest : list event),
    trace_of (continueConversation config JSON_stringify conversation w)
    = EvGetToken searchScope
        :: EvFetch {| req_method := POST; url := retrieveUrl config;
                      headers := [contentTypeJson; authorization token];
                      body := Some (RetrievalBody r) |}
        :: rest
    /\ In {| am_role := user; am_text := question |} (messages r)
    /\ In {| am_role := assistant; am_text := reply |} (messages r)
    /\ messages r
       = map toAgentMessage (List.filter not_system conversation)
           ++ [ {| am_role := user; am_text := followUpQuestion |} ].
Proof.
  intros Hquestion Hreply Htoken.
  destruct (continueConversation_trace config JSON_stringify conversation w w1 token Htoken)
    as [rest Htrace].
  eexists. exists rest. split; [exact Htrace|].
  cbn [messages retrievalRequest_of].
  rewrite List.filter_app. cbn [List.filter not_system msg_role].
  rewrite map_app. cbn [map toAgentMessage msg_role content].
  split; [|split; [|reflexivity]].
  - apply in_or_app. left.
    apply (in_map toAgentMessage _ {| msg_role := user; content := question |}).
    apply filter_In. split; [exact Hquestion | reflexivity].
  - apply in_or_app. left.
    apply (in_map toAgentMessage _ {| msg_role := assistant; content := reply |}).
    apply filter_In. split; [exact Hreply | reflexivity].
Qed.

Lemma C5_context_carries_forward_witness :
  In {| msg_role := user; content := firstQuestion |}
     (initialMessages ++ [ {| msg_role := assistant; content := "City lights." |} ])
  /\ In {| msg_role := assistant; content := "City lights." |}
        (initialMessages ++ [ {| msg_role := assistant; content := "City lights." |} ])
  /\ exists (r : retrievalRequest) (rest : list event),
       trace_of (continueConversation demo_config (fun _ => "")
                   (initialMessages ++ [ {| msg_role := assistant; content := "City lights." |} ])
                   (replying "Follow the glow."))
       = EvGetToken searchScope
           :: EvFetch {| req_method := POST; url := retrieveUrl demo_config;
                         headers := [contentTypeJson; authorization "token"];
                         body := Some (RetrievalBody r) |}
           :: rest
       /\ In {| am_role := user; am_text := firstQuestion |} (messages r)
       /\ In {| am_role := assistant; am_text := "City lights." |} (messages r)
       /\ messages r
          = map toAgentMessage
              (List.filter not_system
                 (initialMessages ++ [ {| msg_role := assistant; content := "City lights." |} ]))
              ++ [ {| am_role := user; am_text := followUpQuestion |} ].
Proof.
  split; [simpl; tauto|]. split; [simpl; tauto|].
  apply (C5_context_carries_forward demo_config (fun _ => "")
           (initialMessages ++ [ {| msg_role := assistant; content := "City lights." |} ])
           firstQuestion "City lights."
           (replying "Follow the glow.") (replying "Follow the glow.") "token").
  - simpl; tauto.
  - simpl; tauto.
  - reflexivity.
Defined.

(** The whole session against such an endpoint: the first request carries the
    first question, the second carries question, reply and follow-up. *)
Example runAgenticRetrieval_requests :
  requests (trace_of (runAgenticRetrieval demo_config (fun _ => "") (replying "City lights.")))
  = [ postRetrieve demo_config "token" [ {| msg_role := user; content := firstQuestion |} ];
      postRetrieve demo_config "token"
        [ {| msg_role := user; content := firstQuestion |};
          {| msg_role := assistant; content := "City lights." |};
          {| msg_role := user; content := followUpQuestion |} ] ].
Proof. reflexivity. Qed.

(** The flat scripts keep no conversation: the second request of
    src/src/index.ts holds the second query alone. *)
Remark index_ts_second_request :
  In (EvSdk (RetrieveKnowledge (singleQuery query2)))
     (trace_of (index_ts (reporting (Arr []) (fun _ => 0))))
  /\ messages (singleQuery query2) = [ {| am_role := user; am_text := query2 |} ].
Proof. split; [simpl; tauto | reflexivity]. Qed.

(** * Further properties of the application *)

(** ** How outcomes and traces compose *)

Section Composition.
Context {W : Type} {world : World W}.

Lemma settles_ret {A} (a : A) : settles (ret (W := W) a).
Proof. intros w. discriminate. Qed.

Lemma settles_throw {A} (e : exn) : settles (throw (W := W) (A := A) e).
Proof. intros w. discriminate. Qed.

Lemma settles_lift {A} (r : exn + A) : settles (lift (W := W) r).
Proof. destruct r; [apply settles_throw | apply settles_ret]. Qed.

Lemma settles_perform {A} (call : W -> (exn + A) * W) (ev : exn + A -> event) :
  settles (perform call ev).
Proof.
  intros w. unfold perform, result_of. destruct (call w) as [[e|a] w']; discriminate.
Qed.

Lemma settles_delay (ms : Z) : settles (delay (W := W) ms).
Proof. intros w. discriminate. Qed.

Lemma settles_bind {A B} (m : M W A) (f : A -> M W B) :
  settles m -> (forall a, settles (f a)) -> settles (bind m f).
Proof.
  intros Hm Hf w. specialize (Hm w). unfold bind, result_of in *.
  destruct (m w) as [[[a|e|] t] w1]; cbn [fst] in *; [|discriminate|contradiction].
  specialize (Hf a w1). unfold result_of in Hf.
  destruct (f a w1) as [[o t'] w2]. exact Hf.
Qed.

Lemma settles_try_catch {A} (m : M W A) (handler : exn -> M W A) :
  settles m -> (forall e, settles (handler e)) -> settles (try_catch m handler).
Proof.
  intros Hm Hh w. specialize (Hm w). unfold try_catch, result_of in *.
  destruct (m w) as [[[a|e|] t] w1]; cbn [fst] in *; [discriminate| |contradiction].
  specialize (Hh e w1). unfold result_of in Hh.
  destruct (handler e w1) as [[o t'] w2]. exact Hh.
Qed.

Lemma emits_ret {A} (P : event -> Prop) (a : A) : emits P (ret (W := W) a).
Proof. intros w. constructor. Qed.

Lemma emits_throw {A} (P : event -> Prop) (e : exn) :
  emits P (throw (W := W) (A := A) e).
Proof. intros w. constructor. Qed.

Lemma emits_lift {A} (P : event -> Prop) (r : exn + A) : emits P (lift (W := W) r).
Proof. destruct r; [apply emits_throw | apply emits_ret]. Qed.

Lemma emits_perform {A} (P : event -> Prop)
  (call : W -> (exn + A) * W) (ev : exn + A -> event) :
  (forall r, P (ev r)) -> emits P (perform call ev).
Proof.
  intros Hev w. unfold perform, trace_of.
  destruct (call w) as [[e|a] w']; cbn [fst snd]; repeat constructor; apply Hev.
Qed.

Lemma emits_bind {A B} (P : event -> Prop) (m : M W A) (f : A -> M W B) :
  emits P m -> (forall a, emits P (f a)) -> emits P (bind m f).
Proof.
  intros Hm Hf w. specialize (Hm w). unfold bind, trace_of in *.
  destruct (m w) as [[[a|e|] t] w1]; cbn [fst snd] in *; try exact Hm.
  specialize (Hf a w1). unfold trace_of in Hf.
  destruct (f a w1) as [[o t'] w2]. cbn [fst snd] in *.
  apply Forall_app. split; assumption.
Qed.

Lemma emits_try_catch {A} (P : event -> Prop) (m : M W A) (handler : exn -> M W A) :
  emits P m -> (forall e, emits P (handler e)) -> emits P (try_catch m handler).
Proof.
  intros Hm Hh w. specialize (Hm w). unfold try_catch, trace_of in *.
  destruct (m w) as [[[a|e|] t] w1]; cbn [fst snd] in *; try exact Hm.
  specialize (Hh e w1). unfold trace_of in Hh.
  destruct (handler e w1) as [[o t'] w2]. cbn [fst snd] in *.
  apply Forall_app. split; assumption.
Qed.

End Composition.

(** Take a computation apart along its binds, catches and branches. *)
Ltac take_apart :=
  repeat first
    [ apply settles_bind; [|intros ?]
    | apply settles_try_catch; [|intros ?]
    | apply settles_ret | apply settles_throw | apply settles_lift
    | apply settles_perform | apply settles_delay
    | apply emits_bind; [|intros ?]
    | apply emits_try_catch; [|intros ?]
    | apply emits_ret | apply emits_throw | apply emits_lift
    | match goal with
      | |- settles (if ?b then _ else _) => destruct b
      | |- emits _ (if ?b then _ else _) => destruct b
      | |- settles (match ?v with _ => _ end) => destruct v
      | |- emits _ (match ?v with _ => _ end) => destruct v
      end ].

(** ** Deleting what was created *)

Section CleanUp.
Context {W : Type} {world : World W}.
Variable config : Config.
Variable statusCode : exn -> value.
Variable code : exn -> value.

Lemma handleDeleteResponse_run (r : response) (resourceName resourceType : string) (w : W) :
  handleDeleteResponse r resourceName resourceType w
  = (if ok r || (status r =? 404) then Returned tt else Thrown (deleteFailed resourceType r),
     [], w).
Proof.
  unfold handleDeleteResponse, response_text, deleteFailed.
  cbv [mbind M_bind bind ret throw].
  destruct (ok r); cbn [negb orb]; [reflexivity|].
  destruct (status r =? 404); reflexivity.
Qed.

Lemma deleteKnowledgeBase_run (w w1 : W) (token : string) :
  world_getToken searchScope w = (inr token, w1) ->
  deleteKnowledgeBase config w
  = match world_fetch (deleteBase config token) w1 with
    | (inr r, w2) =>
        (if ok r || (status r =? 404) then Returned tt
         else Thrown (deleteFailed "Knowledge base" r),
         [EvGetToken searchScope; EvFetch (deleteBase config token)], w2)
    | (inl e, w2) =>
        (Thrown e, [EvGetToken searchScope; EvFetch (deleteBase config token)], w2)
    end.
Proof.
  intros Htoken.
  unfold deleteKnowledgeBase, getAccessToken, getToken, fetch, perform, try_catch.
  cbv [mbind M_bind bind]. rewrite Htoken.
  destruct (world_fetch (deleteBase config token) w1) as [[e|r] w2]; [reflexivity|].
  rewrite handleDeleteResponse_run.
  destruct (ok r || (status r =? 404)); reflexivity.
Qed.

Lemma deleteKnowledgeSource_run (w w1 : W) (token : string) :
  world_getToken searchScope w = (inr token, w1) ->
  deleteKnowledgeSource config w
  = match world_fetch (deleteSource config token) w1 with
    | (inr r, w2) =>
        (if ok r || (status r =? 404) then Returned tt
         else Thrown (deleteFailed "Knowledge source" r),
         [EvGetToken searchScope; EvFetch (deleteSource config token)], w2)
    | (inl e, w2) =>
        (Thrown e, [EvGetToken searchScope; EvFetch (deleteSource config token)], w2)
    end.
Proof.
  intros Htoken.
  unfold deleteKnowledgeSource, getAccessToken, getToken, fetch, perform, try_catch.
  cbv [mbind M_bind bind]. rewrite Htoken.
  destruct (world_fetch (deleteSource config token) w1) as [[e|r] w2]; [reflexivity|].
  rewrite handleDeleteResponse_run.
  destruct (ok r || (status r =? 404)); reflexivity.
Qed.

Lemma deleteSearchIndex_run (w : W) :
  deleteSearchIndex statusCode code w
  = match world_sdk DeleteIndex w with
    | (inr _, w1) => (Returned tt, [EvSdk DeleteIndex], w1)
    | (inl e, w1) =>
        (if strict_equal_num 404 (statusCode e) || strict_equal_str "IndexNotFound" (code e)
         then Returned tt else Thrown e,
         [EvSdk DeleteIndex], w1)
    end.
Proof.
  unfold deleteSearchIndex, sdk, perform, try_catch.
  destruct (world_sdk DeleteIndex w) as [[e|[]] w1]; [|reflexivity].
  destruct (strict_equal_num 404 (statusCode e) || strict_equal_str "IndexNotFound" (code e));
    reflexivity.
Qed.

End CleanUp.

(** X1. With a token granted and the DELETE answered, [deleteKnowledgeBase]
    and [deleteKnowledgeSource] return normally exactly when the answer is a
    success or a 404; any other answer is thrown as "Failed to delete ...". *)
Theorem delete_returns_iff_gone_or_deleted {W : Type} {world : World W} (config : Config)
  (w w1 w2 : W) (token : string) (r : response) :
  world_getToken searchScope w = (inr token, w1) ->
  (world_fetch (deleteBase config token) w1 = (inr r, w2) ->
   (result_of (deleteKnowledgeBase config w) = Returned tt
    <-> ok r = true \/ status r = 404)
   /\ (ok r = false -> status r <> 404 ->
       result_of (deleteKnowledgeBase config w) = Thrown (deleteFailed "Knowledge base" r)))
  /\
  (world_fetch (deleteSource config token) w1 = (inr r, w2) ->
   (result_of (deleteKnowledgeSource config w) = Returned tt
    <-> ok r = true \/ status r = 404)
   /\ (ok r = false -> status r <> 404 ->
       result_of (deleteKnowledgeSource config w) = Thrown (deleteFailed "Knowledge source" r))).
Proof.
  intros Htoken. split; intros Hfetch.
  - rewrite (deleteKnowledgeBase_run config w w1 token Htoken), Hfetch.
    unfold result_of; cbn [fst]. split.
    + destruct (ok r); cbn [orb]; [tauto|].
      destruct (Z.eqb_spec (status r) 404); split; intros; try tauto; try discriminate.
      destruct H as [H|H]; [discriminate | contradiction].
    + intros -> Hne. cbn [orb]. now destruct (Z.eqb_spec (status r) 404).
  - rewrite (deleteKnowledgeSource_run config w w1 token Htoken), Hfetch.
    unfold result_of; cbn [fst]. split.
    + destruct (ok r); cbn [orb]; [tauto|].
      destruct (Z.eqb_spec (status r) 404); split; intros; try tauto; try discriminate.
      destruct H as [H|H]; [discriminate | contradiction].
    + intros -> Hne. cbn [orb]. now destruct (Z.eqb_spec (status r) 404).
Qed.

Lemma delete_returns_iff_gone_or_deleted_witness :
  result_of (deleteKnowledgeBase demo_config all_gone) = Returned tt
  /\ result_of (deleteKnowledgeSource demo_config all_gone) = Returned tt.
Proof.
  pose proof (delete_returns_iff_gone_or_deleted demo_config all_gone all_gone all_gone
                "token" (respond 404 "Not Found" None) eq_refl) as [Hbase Hsource].
  split.
  - apply (proj1 (Hbase eq_refl)). right. reflexivity.
  - apply (proj1 (Hsource eq_refl)). right. reflexivity.
Defined.

(** X2. Clean-up of what is already gone succeeds: when each DELETE is
    answered with a success or a 404 and [deleteIndex] returns or rejects
    with an error whose [statusCode] is 404 or whose [code] is
    'IndexNotFound', [cleanupAllResources(true)] returns normally, having
    tried the knowledge base, the knowledge source and the index, in that
    order. *)
Theorem cleanup_of_missing_resources_succeeds {W : Type} {world : World W}
  (config : Config) (statusCode code : exn -> value)
  (w w1 w2 w3 w4 w5 : W) (t1 t2 : string) (r1 r2 : response) (gone : exn + unit) :
  world_getToken searchScope w = (inr t1, w1) ->
  world_fetch (deleteBase config t1) w1 = (inr r1, w2) ->
  ok r1 || (status r1 =? 404) = true ->
  world_getToken searchScope w2 = (inr t2, w3) ->
  world_fetch (deleteSource config t2) w3 = (inr r2, w4) ->
  ok r2 || (status r2 =? 404) = true ->
  world_sdk DeleteIndex w4 = (gone, w5) ->
  match gone with
  | inr _ => True
  | inl e => strict_equal_num 404 (statusCode e)
             || strict_equal_str "IndexNotFound" (code e) = true
  end ->
  cleanupAllResources config statusCode code true w
  = (Returned tt,
     [EvGetToken searchScope; EvFetch (deleteBase config t1);
      EvGetToken searchScope; EvFetch (deleteSource config t2);
      EvSdk DeleteIndex],
     w5).
Proof.
  intros Ht1 Hf1 Hr1 Ht2 Hf2 Hr2 Hindex Hgone.
  unfold cleanupAllResources. cbn [negb]. cbv [bind].
  rewrite (deleteKnowledgeBase_run config w w1 t1 Ht1), Hf1, Hr1.
  rewrite (deleteKnowledgeSource_run config w2 w3 t2 Ht2), Hf2, Hr2.
  rewrite deleteSearchIndex_run, Hindex.
  destruct gone as [e|u]; [rewrite Hgone|]; reflexivity.
Qed.

Lemma cleanup_of_missing_resources_succeeds_witness :
  cleanupAllResources demo_config statusCode_of code_of true all_gone
  = (Returned tt,
     [EvGetToken searchScope; EvFetch (deleteBase demo_config "token");
      EvGetToken searchScope; EvFetch (deleteSource demo_config "token");
      EvSdk DeleteIndex],
     all_gone).
Proof.
  exact (cleanup_of_missing_resources_succeeds demo_config statusCode_of code_of
           all_gone all_gone all_gone all_gone all_gone all_gone "token" "token"
           (respond 404 "Not Found" None) (respond 404 "Not Found" None) (inl notFound)
           eq_refl eq_refl eq_refl eq_refl eq_refl eq_refl eq_refl eq_refl).
Defined.

(** X3. Clean-up stops at the first deletion that fails: when the DELETE of
    the knowledge base is rejected, or answered with a status that is neither
    a success nor 404, [cleanupAllResources(true)] throws and neither the
    knowledge source nor the index is touched. *)
Theorem cleanup_stops_at_first_failure {W : Type} {world : World W}
  (config : Config) (statusCode code : exn -> value)
  (w w1 w2 : W) (token : string) (answer : exn + response) :
  world_getToken searchScope w = (inr token, w1) ->
  world_fetch (deleteBase config token) w1 = (answer, w2) ->
  match answer with
  | inr r => ok r || (status r =? 404) = false
  | inl _ => True
  end ->
  cleanupAllResources config statusCode code true w
  = (Thrown match answer with
            | inr r => deleteFailed "Knowledge base" r
            | inl e => e
            end,
     [EvGetToken searchScope; EvFetch (deleteBase config token)], w2).
Proof.
  intros Htoken Hfetch Hbad.
  unfold cleanupAllResources. cbn [negb]. cbv [bind].
  rewrite (deleteKnowledgeBase_run config w w1 token Htoken), Hfetch.
  destruct answer as [e|r]; [reflexivity|]. rewrite Hbad. reflexivity.
Qed.

Lemma cleanup_stops_at_first_failure_witness :
  cleanupAllResources demo_config statusCode_of code_of true
    (answering (fun _ => inr (respond 503 "Service Unavailable" None)))
  = (Thrown (deleteFailed "Knowledge base" (respond 503 "Service Unavailable" None)),
     [EvGetToken searchScope; EvFetch (deleteBase demo_config "token")],
     answering (fun _ => inr (respond 503 "Service Unavailable" None))).
Proof.
  exact (cleanup_stops_at_first_failure demo_config statusCode_of code_of
           (answering (fun _ => inr (respond 503 "Service Unavailable" None)))
           (answering (fun _ => inr (respond 503 "Service Unavailable" None)))
           (answering (fun _ => inr (respond 503 "Service Unavailable" None)))
           "token" (inr (respond 503 "Service Unavailable" None))
           eq_refl eq_refl eq_refl).
Defined.

(** ** More on the document source *)

Lemma to_uint_nonnil (n : nat) : Nat.to_uint n <> Decimal.Nil.
Proof.
  rewrite <- (DecimalNat.Unsigned.of_to n) at 1.
  rewrite DecimalNat.Unsigned.to_of. apply DecimalFacts.unorm_nonnil.
Qed.

Lemma to_String_injective (a b : nat) : to_String a = to_String b -> a = b.
Proof.
  unfold to_String. intros Heq.
  pose proof (f_equal NilZero.uint_of_string Heq) as Hsame.
  rewrite !NilZero.usu in Hsame by apply to_uint_nonnil.
  injection Hsame as Hsame.
  apply (f_equal Nat.of_uint) in Hsame.
  now rewrite !DecimalNat.Unsigned.of_to in Hsame.
Qed.

Lemma to_String_truthy (n : nat) : truthy (Str (to_String n)) = true.
Proof.
  unfold to_String, NilZero.string_of_uint.
  pose proof (to_uint_nonnil n) as Hn.
  destruct (Nat.to_uint n); [contradiction | reflexivity ..].
Qed.

Lemma of_nat_succ_truthy (n : nat) : truthy (of_nat (n + 1)) = true.
Proof.
  unfold of_nat, truthy, Qeq_bool. cbn [Qnum Qden inject_Z].
  rewrite Z.mul_1_r. change (0 * Z.pos 1) with 0.
  destruct (Z.eqb_spec (Z.of_nat (n + 1)) 0); [lia | reflexivity].
Qed.

Lemma or_else_default_truthy (a b : value) : truthy b = true -> truthy (or_else a b) = true.
Proof. unfold or_else. intros Hb. destruct (truthy a) eqn:Ha; assumption. Qed.

Section DocumentSourceMore.
Context {W : Type} {world : World W}.

Lemma normalize_returned (doc : value) (index : nat) (w w' : W)
  (d : EarthAtNightDocument) (tr : list event) :
  normalize doc index w = (Returned d, tr, w') -> nullish doc = false.
Proof.
  destruct (nullish doc) eqn:Hdoc; [|reflexivity].
  destruct (normalize_throws doc index w Hdoc) as [e ->]. discriminate.
Qed.

Lemma map_indexed_positions (elems : list value) :
  forall (index : nat) (w : W) (docs : list EarthAtNightDocument),
    map_indexed normalize elems index w = (Returned docs, [], w) ->
    List.length docs = List.length elems
    /\ forall i doc, elems !! i = Some doc ->
         exists d, docs !! i = Some d
                   /\ normalize doc (index + i) w = (Returned d, [], w).
Proof.
  induction elems as [|x rest IH]; intros index w docs.
  - intros [= <-]. split; [reflexivity|]. intros i doc Hi. discriminate.
  - simpl. unfold mbind, M_bind, bind.
    destruct (nullish x) eqn:Hx.
    { destruct (normalize_throws x index w Hx) as [e ->]. discriminate. }
    pose proof (normalize_returns x index w Hx) as Hnorm. rewrite Hnorm.
    destruct (map_indexed_normalize rest (S index) w) as [[docs' [Hrun _]]|[e [Hrun _]]];
      rewrite Hrun; [|discriminate].
    intros [= <-]. destruct (IH (S index) w docs' Hrun) as [Hlen Hpos].
    split; [simpl; now rewrite Hlen|].
    intros [|i] doc Hi.
    + injection Hi as <-. eexists. split; [reflexivity|].
      rewrite Nat.add_0_r. exact Hnorm.
    + destruct (Hpos i doc Hi) as [d [Hd Hn]].
      exists d. split; [exact Hd|].
      replace (index + S i)%nat with (S index + i)%nat by lia. exact Hn.
Qed.

(** What the function does with each transport outcome. *)
Lemma fetchEarthAtNightDocuments_run (w : W) :
  exists docs,
    fetchEarthAtNightDocuments w
    = (Returned docs, [EvFetch documentsRequest], (world_fetch documentsRequest w).2)
    /\ (unusable (world_fetch documentsRequest w).1 = true -> docs = fallbackDocuments)
    /\ (forall r elems,
           (world_fetch documentsRequest w).1 = inr r -> ok r = true ->
           json r = Some (Arr elems) -> existsb nullish elems = false ->
           map_indexed normalize elems 0 (world_fetch documentsRequest w).2
           = (Returned docs, [], (world_fetch documentsRequest w).2)).
Proof.
  unfold fetchEarthAtNightDocuments, try_catch, fetch, perform,
    mbind, M_bind, bind, Array_map, response_json, unusable.
  destruct (world_fetch documentsRequest w) as [[e|r] w1]; cbn [fst snd].
  { eexists. split; [reflexivity|]. split; [reflexivity | discriminate]. }
  destruct (ok r) eqn:Hok; cbn [negb orb].
  2:{ eexists. split; [reflexivity|]. split; [reflexivity|].
      intros r' elems [= <-]. congruence. }
  destruct (json r) as [documents|] eqn:Hjson.
  2:{ eexists. split; [reflexivity|]. split; [reflexivity|].
      intros r' elems [= <-] _. congruence. }
  destruct documents;
    try (eexists; split; [reflexivity|]; split; [reflexivity|];
         intros r' elems' [= <-] _; congruence).
  cbn [ret lift get].
  destruct (map_indexed_normalize elems 0%nat w1) as [[docs [Hrun Hn]]|[e [Hrun Hn]]];
    rewrite Hrun.
  - exists docs. split; [reflexivity|]. split; [congruence|].
    intros r' elems' [= <-] _ Hj _. rewrite Hjson in Hj. injection Hj as <-. exact Hrun.
  - eexists. split; [reflexivity|]. split; [reflexivity|].
    intros r' elems' [= <-] _ Hj. rewrite Hjson in Hj. injection Hj as <-. congruence.
Qed.

(** A document whose fields need no default normalizes to itself. *)
Lemma normalize_document_value (d : EarthAtNightDocument) (j : nat) (w : W) :
  truthy (id d) = true ->
  truthy (page_chunk d) = true \/ page_chunk d = Str "" ->
  truthy (page_embedding_text_3_large d) = true ->
  truthy (page_number d) = true ->
  normalize (document_value d) j w = (Returned d, [], w).
Proof.
  intros Hid Hchunk Hemb Hnum.
  rewrite normalize_returns by reflexivity.
  change (field (document_value d) "id") with (id d).
  change (field (document_value d) "page_chunk") with (page_chunk d).
  change (field (document_value d) "content") with Undefined.
  change (field (document_value d) "page_embedding_text_3_large")
    with (page_embedding_text_3_large d).
  change (field (document_value d) "page_number") with (page_number d).
  rewrite (or_else_truthy _ _ Hid), (or_else_truthy _ _ Hemb), (or_else_truthy _ _ Hnum).
  replace (or_else (page_chunk d) (or_else Undefined (Str ""))) with (page_chunk d).
  - destruct d; reflexivity.
  - destruct Hchunk as [Ht| ->]; [now rewrite (or_else_truthy _ _ Ht) | reflexivity].
Qed.

End DocumentSourceMore.

(** X4. On a usable payload (a success whose body is a JSON array without
    null records) [fetchEarthAtNightDocuments] returns one document per
    record, in order, the i-th being the i-th record normalized at position
    i; no fallback is involved (an empty array gives no documents). *)
Theorem fetch_normalizes_each_record_at_its_position {W : Type} {world : World W}
  (w w1 : W) (r : response) (elems : list value) :
  world_fetch documentsRequest w = (inr r, w1) ->
  ok r = true ->
  json r = Some (Arr elems) ->
  existsb nullish elems = false ->
  exists docs,
    fetchEarthAtNightDocuments w = (Returned docs, [EvFetch documentsRequest], w1)
    /\ List.length docs = List.length elems
    /\ forall i doc, elems !! i = Some doc ->
         exists d, docs !! i = Some d /\ normalize doc i w1 = (Returned d, [], w1).
Proof.
  intros Hfetch Hok Hjson Helems.
  destruct (fetchEarthAtNightDocuments_run w) as [docs [Hrun [_ Hmap]]].
  rewrite Hfetch in Hrun, Hmap. cbn [fst snd] in Hrun, Hmap.
  specialize (Hmap r elems eq_refl Hok Hjson Helems).
  exists docs. split; [exact Hrun|].
  exact (map_indexed_positions elems 0%nat w1 docs Hmap).
Qed.

Lemma fetch_normalizes_each_record_at_its_position_witness :
  exists docs,
    fetchEarthAtNightDocuments (reporting (Arr sampleRecords) (fun _ => 2))
    = (Returned docs, [EvFetch documentsRequest], reporting (Arr sampleRecords) (fun _ => 2))
    /\ List.length docs = List.length sampleRecords
    /\ forall i doc, sampleRecords !! i = Some doc ->
         exists d, docs !! i = Some d
                   /\ normalize doc i (reporting (Arr sampleRecords) (fun _ => 2))
                      = (Returned d, [], reporting (Arr sampleRecords) (fun _ => 2)).
Proof.
  exact (fetch_normalizes_each_record_at_its_position
           (reporting (Arr sampleRecords) (fun _ => 2))
           (reporting (Arr sampleRecords) (fun _ => 2))
           (respond 200 "OK" (Some (Arr sampleRecords))) sampleRecords
           eq_refl eq_refl eq_refl eq_refl).
Defined.

(** X5. Position-based identifiers are distinct: two records without a
    usable [id], normalized at different positions, get different ids. *)
Theorem default_ids_differ_by_position {W : Type} {world : World W}
  (doc1 doc2 : value) (i j : nat) (w1 w2 w1' w2' : W)
  (d1 d2 : EarthAtNightDocument) (tr1 tr2 : list event) :
  normalize doc1 i w1 = (Returned d1, tr1, w1') ->
  normalize doc2 j w2 = (Returned d2, tr2, w2') ->
  truthy (field doc1 "id") = false ->
  truthy (field doc2 "id") = false ->
  i <> j ->
  id d1 <> id d2.
Proof.
  intros H1 H2 Hid1 Hid2 Hij.
  pose proof (normalize_returned doc1 i w1 w1' d1 tr1 H1) as Hn1.
  pose proof (normalize_returned doc2 j w2 w2' d2 tr2 H2) as Hn2.
  rewrite (normalize_returns doc1 i w1 Hn1) in H1.
  rewrite (normalize_returns doc2 j w2 Hn2) in H2.
  injection H1 as <- _ _. injection H2 as <- _ _. cbn [id].
  rewrite (or_else_falsy _ _ Hid1), (or_else_falsy _ _ Hid2).
  intros [= Heq]. apply to_String_injective in Heq. lia.
Qed.

Lemma default_ids_differ_by_position_witness :
  id {| id := Str "1"; page_chunk := Str "";
        page_embedding_text_3_large := Array_fill 3072 (Num (1 # 10));
        page_number := Num 1 |}
  <> id {| id := Str "11"; page_chunk := Str "";
           page_embedding_text_3_large := Array_fill 3072 (Num (1 # 10));
           page_number := Num 11 |}.
Proof.
  apply (default_ids_differ_by_position (Obj []) (Obj [("id", Str "")]) 0 10
           all_gone all_gone all_gone all_gone _ _ [] []);
    [reflexivity | reflexivity | reflexivity | reflexivity | lia].
Defined.

(** X6. Normalization is idempotent: a document that normalization
    produced, read back as a record, normalizes to itself at any position. *)
Theorem normalize_idempotent {W : Type} {world : World W}
  (doc : value) (i j : nat) (w w' w2 : W) (d : EarthAtNightDocument) (tr : list event) :
  normalize doc i w = (Returned d, tr, w') ->
  normalize (document_value d) j w2 = (Returned d, [], w2).
Proof.
  intros Hrun.
  pose proof (normalize_returned doc i w w' d tr Hrun) as Hdoc.
  rewrite (normalize_returns doc i w Hdoc) in Hrun. injection Hrun as <- _ _.
  apply normalize_document_value; cbn [id page_chunk page_embedding_text_3_large page_number].
  - apply or_else_default_truthy, to_String_truthy.
  - unfold or_else.
    destruct (truthy (field doc "page_chunk")) eqn:Ha; [now left|].
    destruct (truthy (field doc "content")) eqn:Hc; [now left | now right].
  - now apply or_else_default_truthy.
  - apply or_else_default_truthy, of_nat_succ_truthy.
Qed.

Lemma normalize_idempotent_witness :
  normalize
    (document_value {| id := Str "7"; page_chunk := Str "night lights";
                       page_embedding_text_3_large := Array_fill 3072 (Num (1 # 10));
                       page_number := Num 7 |}) 0 all_gone
  = (Returned {| id := Str "7"; page_chunk := Str "night lights";
                 page_embedding_text_3_large := Array_fill 3072 (Num (1 # 10));
                 page_number := Num 7 |}, [], all_gone).
Proof.
  apply (normalize_idempotent
           (Obj [("id", Str ""); ("page_chunk", Str ""); ("content", Str "night lights");
                 ("page_number", Num 0)]) 6 0 all_gone all_gone all_gone _ []).
  reflexivity.
Defined.

(** X7. When the document source is unusable, what [uploadDocuments] sends
    to the index is the fallback set; after a successful upload it waits
    5000 ms, and a rejected upload is thrown on without the wait. *)
Theorem uploadDocuments_uploads_fallback {W : Type} {world : World W} (w : W) :
  unusable (world_fetch documentsRequest w).1 = true ->
  uploadDocuments w
  = match world_sdk (UploadDocuments (Arr (map document_value fallbackDocuments)))
            (world_fetch documentsRequest w).2 with
    | (inr _, w2) =>
        (Returned tt,
         [EvFetch documentsRequest;
          EvSdk (UploadDocuments (Arr (map document_value fallbackDocuments)));
          EvDelay 5000], w2)
    | (inl e, w2) =>
        (Thrown e,
         [EvFetch documentsRequest;
          EvSdk (UploadDocuments (Arr (map document_value fallbackDocuments)))], w2)
    end.
Proof.
  intros Hbad.
  destruct (fetchEarthAtNightDocuments_run w) as [docs [Hrun [Hfallback _]]].
  rewrite (Hfallback Hbad) in Hrun.
  unfold uploadDocuments, try_catch, sdk, perform, delay.
  unfold mbind, M_bind, bind. rewrite Hrun.
  destruct (world_sdk _ _) as [[e|[]] w2]; reflexivity.
Qed.

Lemma uploadDocuments_uploads_fallback_witness :
  result_of (uploadDocuments (answering (fun _ => inl (Rejected "offline")))) = Returned tt
  /\ total_delay (trace_of (uploadDocuments (answering (fun _ => inl (Rejected "offline")))))
     = 5000.
Proof.
  assert (Hbad : unusable (world_fetch documentsRequest
                             (answering (fun _ => inl (Rejected "offline")))).1 = true)
    by reflexivity.
  rewrite (uploadDocuments_uploads_fallback (answering (fun _ => inl (Rejected "offline")))
             Hbad).
  split; reflexivity.
Defined.

(** ** More on the retrieval session *)

Section SessionMore.
Context {W : Type} {world : World W}.
Variable config : Config.
Variable JSON_stringify : value -> string.

Lemma callAgenticRetrieval_run (msgs : list KnowledgeAgentMessage) (w w1 : W) (token : string) :
  world_getToken searchScope w = (inr token, w1) ->
  callAgenticRetrieval config msgs w
  = match world_fetch (postRetrieve config token msgs) w1 with
    | (inr r, w2) =>
        (if ok r
         then match json r with
              | Some v => Returned v
              | None => Thrown (SyntaxError "Unexpected token in JSON")
              end
         else Thrown (retrievalFailed r),
         [EvGetToken searchScope; EvFetch (postRetrieve config token msgs)], w2)
    | (inl e, w2) =>
        (Thrown e, [EvGetToken searchScope; EvFetch (postRetrieve config token msgs)], w2)
    end.
Proof.
  intros Htoken.
  unfold callAgenticRetrieval, getAccessToken, getToken, fetch, perform, response_text,
    response_json, retrievalFailed.
  cbv [mbind M_bind bind ret throw]. rewrite Htoken.
  destruct (world_fetch (postRetrieve config token msgs) w1) as [[e|r] w2]; [reflexivity|].
  destruct (ok r); [|reflexivity].
  cbn [negb]. destruct (json r); reflexivity.
Qed.


Lemma forEach_read_run (k : string) (items : list value) (w : W) :
  exists o, forEach_read k items w = (o, [], w).
Proof.
  induction items as [|item rest [o IH]]; [now exists (Returned tt)|].
  simpl. cbv [mbind M_bind bind lift].
  destruct (get item k) as [e|v]; [now exists (Thrown e)|].
  cbv [ret]. rewrite IH. destruct o; eexists; reflexivity.
Qed.

Lemma printActivities_run (response : value) (w : W) :
  exists o, printActivities response w = (o, [], w).
Proof.
  unfold printActivities. cbv [mbind M_bind bind lift].
  destruct (get response "activity") as [e|activity]; [now exists (Thrown e)|].
  cbv [ret].
  destruct activity; try (now exists (Returned tt)).
  destruct (forEach_read_run "activityType" elems w) as [o ->].
  destruct o; eexists; reflexivity.
Qed.

Lemma printReferences_run (response : value) (w : W) :
  exists o, printReferences response w = (o, [], w).
Proof.
  unfold printReferences. cbv [mbind M_bind bind lift].
  destruct (get response "references") as [e|references]; [now exists (Thrown e)|].
  cbv [ret].
  destruct references; try (now exists (Returned tt)).
  destruct (forEach_read_run "referenceType" elems w) as [o ->].
  destruct o; eexists; reflexivity.
Qed.


End SessionMore.



(** X9. A retrieval request that is rejected, or answered with a
    non-success status, ends the session: [runAgenticRetrieval] throws (for a
    non-success answer, "Agentic retrieval failed: ..." with status and
    body) and the follow-up question is never sent. *)
Theorem failed_retrieval_ends_session {W : Type} {world : World W}
  (config : Config) (JSON_stringify : value -> string)
  (w w1 w2 : W) (token : string) (answer : exn + response) :
  world_getToken searchScope w = (inr token, w1) ->
  world_fetch (postRetrieve config token [ {| msg_role := user; content := firstQuestion |} ]) w1
    = (answer, w2) ->
  match answer with inr r => ok r = false | inl _ => True end ->
  runAgenticRetrieval config JSON_stringify w
  = (Thrown match answer with inr r => retrievalFailed r | inl e => e end,
     [EvGetToken searchScope;
      EvFetch (postRetrieve config token [ {| msg_role := user; content := firstQuestion |} ])],
     w2).
Proof.
  intros Htoken Hfetch Hbad.
  unfold runAgenticRetrieval, try_catch. unfold mbind, M_bind. unfold bind at 1.
  cbn [List.filter initialMessages not_system msg_role].
  rewrite (callAgenticRetrieval_run config _ w w1 token Htoken), Hfetch.
  destruct answer as [e|r]; [reflexivity|]. rewrite Hbad. reflexivity.
Qed.

Lemma failed_retrieval_ends_session_witness :
  runAgenticRetrieval demo_config (fun _ => "")
    (answering (fun _ => inr (respond 403 "Forbidden" None)))
  = (Thrown (retrievalFailed (respond 403 "Forbidden" None)),
     [EvGetToken searchScope;
      EvFetch (postRetrieve demo_config "token"
                 [ {| msg_role := user; content := firstQuestion |} ])],
     answering (fun _ => inr (respond 403 "Forbidden" None))).
Proof.
  exact (failed_retrieval_ends_session demo_config (fun _ => "")
           (answering (fun _ => inr (respond 403 "Forbidden" None)))
           (answering (fun _ => inr (respond 403 "Forbidden" None)))
           (answering (fun _ => inr (respond 403 "Forbidden" None)))
           "token" (inr (respond 403 "Forbidden" None)) eq_refl eq_refl eq_refl).
Defined.

(** ** What the stages of [main] do to the outside *)

Lemma in_requests (tr : list event) (req : request) :
  In req (requests tr) <-> In (EvFetch req) tr.
Proof.
  induction tr as [|e tr IH]; [simpl; tauto|].
  destruct e; simpl;
    try (split; [intros Hin; right; apply IH; exact Hin
                | intros [Heq|Hin]; [discriminate | apply IH; exact Hin]]).
  split; (intros [Heq|Hin]; [left; congruence | right; apply IH; exact Hin]).
Qed.

Section Stages.
Context {W : Type} {world : World W}.
Variable config : Config.
Variable JSON_stringify : value -> string.
Variable statusCode : exn -> value.
Variable code : exn -> value.

Lemma emits_fetch (P : event -> Prop) (req : request) :
  P (EvFetch req) -> emits P (fetch (W := W) req).
Proof. intros HP. apply emits_perform. intros _. exact HP. Qed.

Lemma emits_getToken (P : event -> Prop) (scope : string) :
  P (EvGetToken scope) -> emits P (getToken (W := W) scope).
Proof. intros HP. apply emits_perform. intros _. exact HP. Qed.

Lemma emits_sdk (P : event -> Prop) (o : sdk_op) :
  P (EvSdk o) -> emits P (sdk (W := W) o).
Proof. intros HP. apply emits_perform. intros _. exact HP. Qed.

Lemma emits_delay (P : event -> Prop) (ms : Z) :
  P (EvDelay ms) -> emits P (delay (W := W) ms).
Proof. intros HP w. repeat constructor. exact HP. Qed.

Lemma emits_weaken {A} (P Q : event -> Prop) (m : M W A) :
  (forall e, P e -> Q e) -> emits P m -> emits Q m.
Proof. intros HPQ Hm w. exact (Forall_impl _ _ _ (Hm w) HPQ). Qed.

Lemma emits_fetchEarthAtNightDocuments :
  emits uploads (fetchEarthAtNightDocuments (W := W)).
Proof.
  intros w. destruct (fetchEarthAtNightDocuments_run w) as [docs [-> _]].
  repeat constructor.
Qed.

Lemma emits_uploadDocuments : emits uploads (uploadDocuments (W := W)).
Proof.
  unfold uploadDocuments. unfold mbind, M_bind.
  apply emits_try_catch; [|intros e; apply emits_throw].
  apply emits_bind; [apply emits_fetchEarthAtNightDocuments|].
  intros docs. apply emits_bind; [apply emits_sdk | intros _; apply emits_delay]; constructor.
Qed.

Lemma emits_createKnowledgeSource :
  emits (registers config) (createKnowledgeSource (W := W) config).
Proof.
  unfold createKnowledgeSource, getAccessToken, response_text. unfold mbind, M_bind.
  take_apart; first [apply emits_getToken | apply emits_fetch]; constructor.
Qed.

Lemma emits_createKnowledgeBase :
  emits (registers config) (createKnowledgeBase (W := W) config).
Proof.
  unfold createKnowledgeBase, createKnowledgeBaseWith, getAccessToken, response_text.
  unfold mbind, M_bind.
  take_apart; first [apply emits_getToken | apply emits_fetch]; constructor.
Qed.

Lemma emits_prepareSearchService (uploadDocs : bool) :
  emits (fun e => (uploadDocs = true /\ uploads e) \/ registers config e)
    (prepareSearchService (W := W) config uploadDocs).
Proof.
  unfold prepareSearchService, createSearchIndex.
  apply emits_bind; [|intros _; apply emits_bind; [|intros _]].
  - destruct uploadDocs; [|apply emits_ret].
    apply (emits_weaken uploads); [intros e He; now left|].
    apply emits_bind; [|intros _; apply emits_uploadDocuments].
    apply emits_try_catch; [apply emits_sdk; constructor | intros e; apply emits_throw].
  - apply (emits_weaken (registers config)); [intros e He; now right|].
    apply emits_createKnowledgeSource.
  - apply (emits_weaken (registers config)); [intros e He; now right|].
    apply emits_createKnowledgeBase.
Qed.

Lemma emits_callAgenticRetrieval (msgs : list KnowledgeAgentMessage) :
  forallb not_system msgs = true ->
  emits (converses config) (callAgenticRetrieval (W := W) config msgs).
Proof.
  intros Hmsgs.
  unfold callAgenticRetrieval, getAccessToken, response_text, response_json.
  unfold mbind, M_bind.
  take_apart; first [apply emits_getToken | apply emits_fetch]; now constructor.
Qed.

Lemma emits_printActivities (P : event -> Prop) (response : value) :
  emits P (printActivities (W := W) response).
Proof. intros w. destruct (printActivities_run response w) as [o ->]. constructor. Qed.

Lemma emits_printReferences (P : event -> Prop) (response : value) :
  emits P (printReferences (W := W) response).
Proof. intros w. destruct (printReferences_run response w) as [o ->]. constructor. Qed.

Lemma forallb_filter_not_system (msgs : list KnowledgeAgentMessage) :
  forallb not_system (List.filter not_system msgs) = true.
Proof.
  apply forallb_forall. intros m Hm. now apply filter_In in Hm.
Qed.

Lemma emits_continueConversation (msgs : list KnowledgeAgentMessage) :
  emits (converses config) (continueConversation (W := W) config JSON_stringify msgs).
Proof.
  unfold continueConversation. unfold mbind, M_bind.
  apply emits_try_catch; [|intros e; apply emits_throw].
  apply emits_bind; [apply emits_callAgenticRetrieval, forallb_filter_not_system|]. intros v.
  apply emits_bind; [apply emits_lift|]. intros response.
  apply emits_bind; [apply emits_printActivities|]. intros _.
  apply emits_bind; [apply emits_printReferences|]. intros _. apply emits_ret.
Qed.

Lemma emits_runAgenticRetrieval :
  emits (converses config) (runAgenticRetrieval (W := W) config JSON_stringify).
Proof.
  unfold runAgenticRetrieval. unfold mbind, M_bind.
  apply emits_try_catch; [|intros e; apply emits_throw].
  apply emits_bind; [apply emits_callAgenticRetrieval, forallb_filter_not_system|]. intros v.
  apply emits_bind; [apply emits_lift|]. intros response.
  apply emits_bind; [apply emits_printActivities|]. intros _.
  apply emits_bind; [apply emits_printReferences|]. intros _.
  apply emits_continueConversation.
Qed.

Lemma emits_cleanupAllResources (cleanup : bool) :
  emits (fun e => cleanup = true /\ cleans config e)
    (cleanupAllResources (W := W) config statusCode code cleanup).
Proof.
  unfold cleanupAllResources, deleteKnowledgeBase, deleteKnowledgeSource, deleteSearchIndex,
    handleDeleteResponse, getAccessToken, response_text.
  unfold mbind, M_bind. destruct cleanup; cbn [negb]; [|apply emits_ret].
  take_apart; first [apply emits_getToken | apply emits_fetch | apply emits_sdk];
    split; [reflexivity | constructor | reflexivity | constructor | reflexivity | constructor
           | reflexivity | constructor | reflexivity | constructor ].
Qed.

(** Everything [main] does to the outside belongs to one of its stages. *)
Lemma emits_main (uploadDocs cleanupResources : bool) :
  emits (fun e => (uploadDocs = true /\ uploads e) \/ registers config e
                  \/ converses config e \/ (cleanupResources = true /\ cleans config e))
    (main (W := W) config JSON_stringify statusCode code uploadDocs cleanupResources).
Proof.
  unfold main. unfold mbind, M_bind.
  apply emits_try_catch; [|intros e; apply emits_throw].
  apply emits_bind; [|intros _; apply emits_bind; [|intros _]].
  - eapply emits_weaken; [|apply emits_prepareSearchService]. cbv beta. tauto.
  - eapply emits_weaken; [|apply emits_runAgenticRetrieval]. cbv beta. tauto.
  - eapply emits_weaken; [|apply emits_cleanupAllResources]. cbv beta. tauto.
Qed.

(** How [main] is put together from its stages. *)
Lemma main_run (uploadDocs cleanupResources : bool) (w : W) :
  main config JSON_stringify statusCode code uploadDocs cleanupResources w
  = match prepareSearchService config uploadDocs w with
    | (Returned _, t1, w1) =>
        match runAgenticRetrieval config JSON_stringify w1 with
        | (Returned _, t2, w2) =>
            match cleanupAllResources config statusCode code cleanupResources w2 with
            | (o, t3, w3) => (o, t1 ++ t2 ++ t3, w3)
            end
        | (Thrown e, t2, w2) => (Thrown e, t1 ++ t2, w2)
        | (Pending, t2, w2) => (Pending, t1 ++ t2, w2)
        end
    | (Thrown e, t1, w1) => (Thrown e, t1, w1)
    | (Pending, t1, w1) => (Pending, t1, w1)
    end.
Proof.
  unfold main, try_catch. unfold mbind, M_bind. unfold bind.
  destruct (prepareSearchService config uploadDocs w) as [[[[]|e|] t1] w1];
    [|cbv [throw]; now rewrite app_nil_r | reflexivity].
  destruct (runAgenticRetrieval config JSON_stringify w1) as [[[out|e|] t2] w2];
    [|cbv [throw]; now rewrite app_nil_r | reflexivity].
  destruct (cleanupAllResources config statusCode code cleanupResources w2)
    as [[[[]|e|] t3] w3]; [reflexivity | cbv [throw]; now rewrite app_nil_r | reflexivity].
Qed.

End Stages.

(** X10. Every request [main] sends, apart from the fetch of the public
    documents file, carries a bearer token in its Authorization header. *)
Theorem requests_of_main_are_authorized {W : Type} {world : World W}
  (config : Config) (JSON_stringify : value -> string) (statusCode code : exn -> value)
  (uploadDocs cleanupResources : bool) (w : W) (req : request) :
  In req (requests (trace_of (main config JSON_stringify statusCode code
                                uploadDocs cleanupResources w))) ->
  req = documentsRequest \/ authorized req.
Proof.
  intros Hin. apply in_requests, list_elem_of_In in Hin.
  pose proof (emits_main config JSON_stringify statusCode code uploadDocs cleanupResources w)
    as Hall.
  rewrite Forall_forall in Hall. specialize (Hall _ Hin).
  destruct Hall as [[_ Hu]|[Hr|[Hc|[_ Hd]]]].
  - inversion Hu. now left.
  - right. inversion Hr; subst; exists token; simpl; tauto.
  - right. inversion Hc; subst. exists token; simpl; tauto.
  - right. inversion Hd; subst; exists token; simpl; tauto.
Qed.

Lemma requests_of_main_are_authorized_witness :
  In (postSource demo_config "token")
     (requests (trace_of (main demo_config (fun _ => "") statusCode_of code_of false true
                            (probe_fails_with 404))))
  /\ (postSource demo_config "token" = documentsRequest
      \/ authorized (postSource demo_config "token")).
Proof.
  assert (Hin : In (postSource demo_config "token")
                  (requests (trace_of (main demo_config (fun _ => "") statusCode_of code_of
                                         false true (probe_fails_with 404)))))
    by (simpl; tauto).
  split; [exact Hin|].
  exact (requests_of_main_are_authorized demo_config (fun _ => "") statusCode_of code_of
           false true (probe_fails_with 404) (postSource demo_config "token") Hin).
Defined.

(** X11. The system prompt never leaves the process: no retrieval request
    that [main] sends holds a message with the system role. *)
Theorem system_prompt_is_never_sent {W : Type} {world : World W}
  (config : Config) (JSON_stringify : value -> string) (statusCode code : exn -> value)
  (uploadDocs cleanupResources : bool) (w : W) (req : request) (r : retrievalRequest)
  (m : agentMessage) :
  In req (requests (trace_of (main config JSON_stringify statusCode code
                                uploadDocs cleanupResources w))) ->
  body req = Some (RetrievalBody r) ->
  In m (messages r) ->
  am_role m <> system.
Proof.
  intros Hin Hbody Hm. apply in_requests, list_elem_of_In in Hin.
  pose proof (emits_main config JSON_stringify statusCode code uploadDocs cleanupResources w)
    as Hall.
  rewrite Forall_forall in Hall. specialize (Hall _ Hin).
  destruct Hall as [[_ Hu]|[Hr|[Hc|[_ Hd]]]].
  - inversion Hu. subst. discriminate.
  - inversion Hr; subst; discriminate.
  - inversion Hc as [|token msgs Hmsgs Heq]. subst.
    injection Hbody as <-. cbn [messages retrievalRequest_of] in Hm.
    apply in_map_iff in Hm. destruct Hm as [km [<- Hkm]].
    rewrite forallb_forall in Hmsgs. specialize (Hmsgs km Hkm).
    unfold not_system, toAgentMessage in *. cbn [am_role].
    destruct (msg_role km); [discriminate | discriminate | discriminate Hmsgs].
  - inversion Hd; subst; discriminate.
Qed.

Lemma system_prompt_is_never_sent_witness :
  am_role {| am_role := user; am_text := firstQuestion |} <> system.
Proof.
  apply (system_prompt_is_never_sent demo_config (fun _ => "") statusCode_of code_of
           false false (replying "City lights.")
           (postRetrieve demo_config "token" [ {| msg_role := user; content := firstQuestion |} ])
           (retrievalRequest_of demo_config [ {| msg_role := user; content := firstQuestion |} ])
           {| am_role := user; am_text := firstQuestion |}).
  - simpl. tauto.
  - reflexivity.
  - simpl. tauto.
Defined.

(** X12. [main] deletes only after everything else went well: an event
    that deletes something occurs in its trace only when clean-up is enabled
    and both the preparation and the whole retrieval session returned. *)
Theorem main_deletes_only_after_success {W : Type} {world : World W}
  (config : Config) (JSON_stringify : value -> string) (statusCode code : exn -> value)
  (uploadDocs cleanupResources : bool) (w : W) (e : event) :
  In e (trace_of (main config JSON_stringify statusCode code uploadDocs cleanupResources w)) ->
  deletes e ->
  cleanupResources = true
  /\ result_of (prepareSearchService config uploadDocs w) = Returned tt
  /\ exists out,
       result_of (runAgenticRetrieval config JSON_stringify
                    (world_of (prepareSearchService config uploadDocs w)))
       = Returned out.
Proof.
  intros Hin Hdel.
  assert (Hprepare : forall x, In x (trace_of (prepareSearchService config uploadDocs w)) ->
                               ~ deletes x).
  { intros x Hx. apply list_elem_of_In in Hx.
    pose proof (emits_prepareSearchService config uploadDocs w) as Hall.
    rewrite Forall_forall in Hall.
    destruct (Hall _ Hx) as [[_ Hu]|Hr]; [inversion Hu | inversion Hr]; simpl; auto;
      discriminate. }
  assert (Hsession : forall w1 x,
             In x (trace_of (runAgenticRetrieval config JSON_stringify w1)) -> ~ deletes x).
  { intros w1 x Hx. apply list_elem_of_In in Hx.
    pose proof (emits_runAgenticRetrieval config JSON_stringify w1) as Hall.
    rewrite Forall_forall in Hall.
    specialize (Hall _ Hx). inversion Hall; simpl; auto; discriminate. }
  assert (Hclean : forall w2 x,
             In x (trace_of (cleanupAllResources config statusCode code cleanupResources w2)) ->
             cleanupResources = true).
  { intros w2 x Hx. apply list_elem_of_In in Hx.
    pose proof (emits_cleanupAllResources config statusCode code cleanupResources w2) as Hall.
    rewrite Forall_forall in Hall. exact (proj1 (Hall _ Hx)). }
  rewrite main_run in Hin. unfold result_of, world_of, trace_of in *.
  destruct (prepareSearchService config uploadDocs w) as [[[[]|e1|] t1] w1];
    cbn [fst snd] in *;
    [| now destruct (Hprepare e Hin) | now destruct (Hprepare e Hin)].
  specialize (Hsession w1).
  destruct (runAgenticRetrieval config JSON_stringify w1) as [[[out|e2|] t2] w2];
    cbn [fst snd] in *.
  - specialize (Hclean w2).
    destruct (cleanupAllResources config statusCode code cleanupResources w2)
      as [[o t3] w3]; cbn [fst snd] in *.
    apply in_app_or in Hin. destruct Hin as [Hin|Hin]; [now destruct (Hprepare e Hin)|].
    apply in_app_or in Hin. destruct Hin as [Hin|Hin]; [now destruct (Hsession e Hin)|].
    split; [exact (Hclean e Hin)|]. split; [reflexivity|]. now exists out.
  - apply in_app_or in Hin. destruct Hin as [Hin|Hin];
      [now destruct (Hprepare e Hin) | now destruct (Hsession e Hin)].
  - apply in_app_or in Hin. destruct Hin as [Hin|Hin];
      [now destruct (Hprepare e Hin) | now destruct (Hsession e Hin)].
Qed.

Lemma main_deletes_only_after_success_witness :
  In (EvSdk DeleteIndex)
     (trace_of (main demo_config (fun _ => "") statusCode_of code_of false true
                  (replying "City lights.")))
  /\ deletes (EvSdk DeleteIndex)
  /\ result_of (prepareSearchService demo_config false (replying "City lights."))
     = Returned tt.
Proof.
  assert (Hin : In (EvSdk DeleteIndex)
                  (trace_of (main demo_config (fun _ => "") statusCode_of code_of false true
                               (replying "City lights."))))
    by (simpl; tauto).
  split; [exact Hin|]. split; [exact I|].
  exact (proj1 (proj2 (main_deletes_only_after_success demo_config (fun _ => "")
                         statusCode_of code_of false true (replying "City lights.")
                         (EvSdk DeleteIndex) Hin I))).
Defined.

(** X14. With [uploadDocs] false, [prepareSearchService] only registers:
    it calls no SDK client, does not fetch the documents file and does not
    wait. *)
Theorem prepare_without_upload_only_registers {W : Type} {world : World W}
  (config : Config) (w : W) :
  Forall (fun e => registers config e
                   /\ is_sdk e = false
                   /\ e <> EvFetch documentsRequest
                   /\ total_delay [e] = 0)
    (trace_of (prepareSearchService config false w)).
Proof.
  pose proof (emits_prepareSearchService config false w) as Hall. cbv beta in Hall.
  eapply Forall_impl; [exact Hall|]. intros e [[Hfalse _]|Hr]; [discriminate|].
  split; [exact Hr|]. inversion Hr; repeat split; discriminate.
Qed.

(** ** More on the convergence monitor *)

Lemma reads_app (t1 t2 : list event) : reads (t1 ++ t2) = reads t1 ++ reads t2.
Proof.
  induction t1 as [|e t1 IH]; [reflexivity|].
  destruct e; simpl; now rewrite ?IH.
Qed.

Lemma no_reads (tr : list event) :
  Forall (fun e => is_read e = false) tr -> reads tr = [].
Proof.
  induction 1 as [|e tr He _ IH]; [reflexivity|].
  destruct e; simpl; try exact IH; discriminate.
Qed.

Lemma trace_of_run {W A} (o : outcome A) (t : list event) (w : W) :
  trace_of (o, t, w) = t.
Proof. reflexivity. Qed.

Ltac shape :=
  repeat (constructor; [first [left; reflexivity | right; reflexivity]|]);
  first [assumption | constructor].

Section MonitorMore.
Context {W : Type} {world : World W}.

(** Waits and reads go in pairs; a loop that exits holds the count read
    last, which equals [expected] as a number. *)
Lemma poll_accounting (expected : value) (fuel : nat) :
  forall (count : Z) (w w' : W) (o : outcome Z) (tr : list event),
    poll fuel expected count w = (o, tr, w') ->
    Forall (fun e => is_read e = true \/ e = EvDelay WAIT_TIME) tr
    /\ match o with
       | Thrown _ => total_delay tr = WAIT_TIME * (Z.of_nat (List.length (reads tr)) + 1)
       | _ => total_delay tr = WAIT_TIME * Z.of_nat (List.length (reads tr))
       end
    /\ forall c, o = Returned c ->
         strict_equal_num c expected = true /\ last (count :: reads tr) = Some c.
Proof.
  induction fuel as [|fuel IH]; intros count w w' o tr.
  - rewrite poll_zero. destruct (strict_equal_num count expected) eqn:Heq;
      intros [= <- <- <-]; (split; [constructor|]); (split; [reflexivity|]).
    + intros c [= <-]. now split.
    + discriminate.
  - rewrite poll_unfold. destruct (strict_equal_num count expected) eqn:Heq.
    + intros [= <- <- <-]. split; [constructor|]. split; [reflexivity|].
      intros c [= <-]. now split.
    + destruct (world_getDocumentsCount w) as [[e|c1] w1].
      * intros [= <- <- <-]. split; [shape|].
        split; [reflexivity | discriminate].
      * destruct (poll fuel expected c1 w1) as [[o1 t1] w2] eqn:Hrec.
        unfold result_of, trace_of, world_of. cbn [fst snd].
        intros [= <- <- <-].
        destruct (IH c1 w1 w2 o1 t1 Hrec) as [Hshape [Htime Hexit]].
        split; [shape|]. split.
        -- cbn [total_delay reads List.length]. destruct o1; lia.
        -- intros c Hc. destruct (Hexit c Hc) as [Hnum Hlast]. split; [exact Hnum|].
           cbn [reads]. exact Hlast.
Qed.

Lemma awaitIndexing_accounting (fuel : nat) (documents : value)
  (w w' : W) (o : outcome Z) (tr : list event) :
  awaitIndexing fuel documents w = (o, tr, w') ->
  Forall (fun e => is_read e = true \/ e = EvDelay WAIT_TIME) tr
  /\ forall c, o = Returned c ->
       total_delay tr = WAIT_TIME * Z.of_nat (List.length (reads tr))
       /\ strict_equal_num c (field documents "length") = true
       /\ last (reads tr) = Some c.
Proof.
  unfold awaitIndexing, getDocumentsCount, field.
  cbv [mbind M_bind bind lift delay perform ret throw].
  destruct (get documents "length") as [e|expected].
  { intros [= <- <- <-]. split; [constructor | discriminate]. }
  destruct (world_getDocumentsCount w) as [[e|c0] w1].
  { intros [= <- <- <-]. split; [shape | discriminate]. }
  destruct (poll fuel expected c0 w1) as [[o1 t1] w2] eqn:Hpoll.
  intros [= <- <- <-].
  destruct (poll_accounting expected fuel c0 w1 w2 o1 t1 Hpoll) as [Hshape [Htime Hexit]].
  split; [shape|].
  intros c Hc. destruct (Hexit c Hc) as [Hnum Hlast]. subst o1.
  split; [|split; [exact Hnum | exact Hlast]].
  cbn [total_delay reads List.length app]. lia.
Qed.

End MonitorMore.

(** X15. The wait is 4000 ms per read: when the monitor returns, at
    least one read was made and the time spent in [delay] is 4000 ms times
    the number of reads. *)
Theorem monitor_waits_once_per_read {W : Type} {world : World W}
  (fuel : nat) (documents : value) (w w' : W) (c : Z) (tr : list event) :
  awaitIndexing fuel documents w = (Returned c, tr, w') ->
  (1 <= List.length (reads tr))%nat
  /\ total_delay tr = 4000 * Z.of_nat (List.length (reads tr)).
Proof.
  intros Hrun.
  destruct (awaitIndexing_accounting fuel documents w w' _ tr Hrun) as [_ Hexit].
  destruct (Hexit c eq_refl) as [Htime [_ Hlast]].
  split; [|exact Htime].
  destruct (reads tr); [discriminate Hlast | simpl; lia].
Qed.

Lemma monitor_waits_once_per_read_witness :
  total_delay (polling [0; 1] 2) = 4000 * Z.of_nat (List.length (reads (polling [0; 1] 2))).
Proof.
  apply (monitor_waits_once_per_read 5 (Arr sampleRecords)
           (reporting (Arr sampleRecords) (fun k => Z.of_nat k))
           (world_of (awaitIndexing 5 (Arr sampleRecords)
                        (reporting (Arr sampleRecords) (fun k => Z.of_nat k))))
           2 (polling [0; 1] 2)).
  reflexivity.
Defined.

(** X16. Whatever the payload is, the monitor returns only with a count
    that was the last one read and that is strictly equal to the payload's
    [length] property; on a payload whose [length] is not a number it never
    returns. *)
Theorem monitor_returns_only_on_numeric_length {W : Type} {world : World W}
  (fuel : nat) (documents : value) (w w' : W) (c : Z) (tr : list event) :
  awaitIndexing fuel documents w = (Returned c, tr, w') ->
  last (reads tr) = Some c
  /\ exists q, field documents "length" = Num q /\ Qeq (inject_Z c) q.
Proof.
  intros Hrun.
  destruct (awaitIndexing_accounting fuel documents w w' _ tr Hrun) as [_ Hexit].
  destruct (Hexit c eq_refl) as [_ [Hnum Hlast]].
  split; [exact Hlast|].
  unfold strict_equal_num in Hnum.
  destruct (field documents "length"); try discriminate.
  exists q. split; [reflexivity|]. now apply Qeq_bool_iff.
Qed.

Lemma monitor_returns_only_on_numeric_length_witness :
  last (reads (polling [0; 1] 2)) = Some 2
  /\ exists q, field (Arr sampleRecords) "length" = Num q /\ Qeq (inject_Z 2) q.
Proof.
  apply (monitor_returns_only_on_numeric_length 5 (Arr sampleRecords)
           (reporting (Arr sampleRecords) (fun k => Z.of_nat k))
           (world_of (awaitIndexing 5 (Arr sampleRecords)
                        (reporting (Arr sampleRecords) (fun k => Z.of_nat k))))
           2 (polling [0; 1] 2)).
  reflexivity.
Defined.

(** ** A count read that fails *)

Lemma poll_read_fails (n : nat) (e : exn) (k : nat) :
  forall (fuel : nat) (count : Z) (w : scripted),
    count <> Z.of_nat n ->
    (forall j, (j < k)%nat ->
       exists c, sc_counts w (sc_reads w + j)%nat = inr c /\ c <> Z.of_nat n) ->
    sc_counts w (sc_reads w + k)%nat = inl e ->
    (k < fuel)%nat ->
    result_of (poll fuel (of_nat n) count w) = Thrown e
    /\ List.length (reads (trace_of (poll fuel (of_nat n) count w))) = k.
Proof.
  induction k as [|k IH]; intros fuel count w Hcount Hstale Hfail Hfuel;
    (destruct fuel as [|fuel]; [lia|]);
    rewrite poll_unfold, strict_equal_num_of_nat;
    (destruct (Z.eqb_spec count (Z.of_nat n)); [contradiction|]); simpl.
  - rewrite Nat.add_0_r in Hfail. rewrite Hfail. split; reflexivity.
  - destruct (Hstale 0%nat ltac:(lia)) as [c [Hc Hne]].
    rewrite Nat.add_0_r in Hc. rewrite Hc. simpl.
    match goal with
    | |- context [poll fuel ?x c ?w1] =>
        assert (Hrec : result_of (poll fuel x c w1) = Thrown e
                       /\ List.length (reads (trace_of (poll fuel x c w1))) = k);
        [ apply (IH fuel c w1 Hne) | destruct (poll fuel x c w1) as [[o t] w2] ]
    end.
    + intros j Hj. destruct (Hstale (S j) ltac:(lia)) as [c' Hc'].
      exists c'. simpl. now rewrite <- Nat.add_succ_r.
    + simpl. now rewrite <- Nat.add_succ_r.
    + lia.
    + unfold result_of, trace_of in *. cbn [fst snd] in *.
      destruct Hrec as [-> Hlen]. split; [reflexivity|].
      cbn [reads List.length]. now rewrite Hlen.
Qed.

(** X17. A failed read is not retried: when the index answers [k] counts
    that differ from |D| and then rejects a read, the monitor throws that
    rejection after exactly [k] answered reads. *)
Theorem monitor_throws_on_failed_read (D : list value) (stale : list Z) (e : exn) (fuel : nat) :
  Forall (fun c => c <> Z.of_nat (List.length D)) stale ->
  (List.length stale <= fuel)%nat ->
  result_of (awaitIndexing fuel (Arr D) (failing_after stale e)) = Thrown e
  /\ List.length (reads (trace_of (awaitIndexing fuel (Arr D) (failing_after stale e))))
     = List.length stale.
Proof.
  intros Hstale Hfuel.
  destruct stale as [|c0 rest]; [split; reflexivity|].
  assert (Hat : forall j c, (c0 :: rest) !! j = Some c ->
                  sc_counts (failing_after (c0 :: rest) e) j = inr c
                  /\ c <> Z.of_nat (List.length D)).
  { intros j c Hj. split; [cbn [sc_counts failing_after]; now rewrite Hj|].
    rewrite Forall_forall in Hstale. apply Hstale. eapply list_elem_of_lookup_2; eauto. }
  assert (Hend : sc_counts (failing_after (c0 :: rest) e) (1 + List.length rest) = inl e).
  { cbn [sc_counts failing_after].
    now rewrite (proj2 (lookup_ge_None (c0 :: rest) (1 + List.length rest))
                   (Nat.le_refl _)). }
  destruct (Hat 0%nat c0 eq_refl) as [H0 Hne0].
  unfold awaitIndexing, getDocumentsCount.
  cbv [mbind M_bind bind lift delay perform ret throw]. cbn [get String.eqb Ascii.eqb Bool.eqb].
  change (world_getDocumentsCount (failing_after (c0 :: rest) e))
    with (sc_counts (failing_after (c0 :: rest) e) 0%nat,
          {| sc_fetch := sc_fetch (failing_after (c0 :: rest) e);
             sc_getToken := sc_getToken (failing_after (c0 :: rest) e);
             sc_counts := sc_counts (failing_after (c0 :: rest) e);
             sc_sdk := sc_sdk (failing_after (c0 :: rest) e);
             sc_reads := 1 |}).
  rewrite H0.
  match goal with
  | |- context [poll fuel ?x c0 ?w1] =>
      assert (Hrec : result_of (poll fuel x c0 w1) = Thrown e
                     /\ List.length (reads (trace_of (poll fuel x c0 w1))) = List.length rest);
      [ apply (poll_read_fails (List.length D) e (List.length rest) fuel c0 w1 Hne0)
      | destruct (poll fuel x c0 w1) as [[o t] w2] ]
  end.
  - intros j Hj. destruct (lookup_lt_is_Some_2 rest j Hj) as [c Hc].
    exists c. exact (Hat (S j) c Hc).
  - exact Hend.
  - simpl in Hfuel. lia.
  - unfold result_of, trace_of in *. cbn [fst snd] in *.
    destruct Hrec as [-> Hlen]. split; [reflexivity|].
    cbn [reads List.length app]. now rewrite Hlen.
Qed.

Lemma monitor_throws_on_failed_read_witness :
  result_of (awaitIndexing 9 (Arr sampleRecords) (failing_after [0; 1] (Rejected "timeout")))
    = Thrown (Rejected "timeout")
  /\ List.length (reads (trace_of (awaitIndexing 9 (Arr sampleRecords)
                                     (failing_after [0; 1] (Rejected "timeout")))))
     = List.length [0; 1].
Proof.
  apply (monitor_throws_on_failed_read sampleRecords [0; 1] (Rejected "timeout") 9).
  - repeat constructor; cbn; lia.
  - cbn. lia.
Defined.

(** ** More on the flat scripts *)

Section ScriptsMore.
Context {W : Type} {world : World W}.

Lemma emits_registerQueryCleanUp (P : event -> Prop) :
  (forall o, after_indexing o = true -> P (EvSdk o)) ->
  emits P (registerQueryCleanUp (W := W)).
Proof.
  intros HP. unfold registerQueryCleanUp. take_apart; apply emits_sdk, HP; reflexivity.
Qed.

(** Before the flush has returned, the script has read no count and has
    made none of the calls that come after indexing. *)
Lemma emits_uploadAndFlush :
  emits (fun e => is_read e = false /\ forall o, e = EvSdk o -> after_indexing o = false)
    (uploadAndFlush (W := W)).
Proof.
  unfold uploadAndFlush, fetchDocuments, registerHandlers, response_json.
  unfold mbind, M_bind.
  take_apart; first [ apply emits_sdk | apply emits_fetch ];
    (split; [reflexivity|]); intros o [= <-]; reflexivity.
Qed.

End ScriptsMore.

(** X18. src/src/index.ts never reads the document count and never
    flushes or disposes the buffered sender, in any world. *)
Theorem index_ts_never_polls_or_releases {W : Type} {world : World W} (w : W) :
  Forall (fun e => is_read e = false /\ is_release e = false) (trace_of (index_ts w)).
Proof.
  revert w. change (emits (fun e => is_read e = false /\ is_release e = false)
                      (index_ts (W := W))).
  unfold index_ts, fetchDocuments, registerHandlers, registerQueryCleanUp, response_json.
  unfold mbind, M_bind.
  take_apart; first [ apply emits_sdk | apply emits_fetch | apply emits_delay ];
    split; reflexivity.
Qed.

(** X19. The script that polls registers, queries and cleans up only
    after the index reported the expected count: a call that belongs after
    indexing occurs in its trace only when the upload and flush returned and
    the last count read is strictly equal to the payload's [length]. *)
Theorem quickstart_proceeds_only_after_convergence {W : Type} {world : World W}
  (fuel : nat) (w : W) (o : sdk_op) :
  In (EvSdk o) (trace_of (quickstart fuel w)) ->
  after_indexing o = true ->
  exists documents c,
    result_of (uploadAndFlush w) = Returned documents
    /\ last (reads (trace_of (quickstart fuel w))) = Some c
    /\ strict_equal_num c (field documents "length") = true.
Proof.
  intros Hin Hafter. rewrite quickstart_split in *.
  pose proof (emits_uploadAndFlush w) as Hpre.
  assert (Hnot_pre : forall pre,
             Forall (fun e => is_read e = false
                              /\ forall o, e = EvSdk o -> after_indexing o = false) pre ->
             ~ In (EvSdk o) pre).
  { intros pre Hall Hi. rewrite Forall_forall in Hall.
    apply list_elem_of_In in Hi. destruct (Hall _ Hi) as [_ Hno].
    rewrite (Hno o eq_refl) in Hafter. discriminate. }
  unfold result_of, trace_of in *.
  destruct (uploadAndFlush w) as [[[documents|e|] pre] w1]; cbn [fst snd] in *;
    [| now destruct (Hnot_pre pre Hpre Hin) | now destruct (Hnot_pre pre Hpre Hin)].
  assert (Hreads_pre : reads pre = []).
  { apply no_reads. eapply Forall_impl; [exact Hpre|]. now intros e [He _]. }
  revert Hin. cbv [bind]. rewrite sdk_run.
  destruct (world_sdk Dispose w1) as [[e|u] w2]; cbn [fst snd].
  { intros Hin. apply in_app_or in Hin. destruct Hin as [Hin|[Hin|[]]];
      [now destruct (Hnot_pre pre Hpre Hin)|].
    injection Hin as <-. discriminate. }
  destruct (awaitIndexing fuel documents w2) as [[o1 t] w3] eqn:Hawait.
  destruct (awaitIndexing_accounting fuel documents w2 w3 o1 t Hawait) as [Hshape Hexit].
  assert (Hnot_t : ~ In (EvSdk o) t).
  { intros Hi. rewrite Forall_forall in Hshape. apply list_elem_of_In in Hi.
    destruct (Hshape _ Hi) as [Hr|Hd]; discriminate. }
  destruct o1 as [c|e|]; cbn [fst snd].
  - pose proof (emits_registerQueryCleanUp (fun e => is_read e = false)
                  (fun o' _ => eq_refl) w3) as Hrest.
    unfold trace_of in Hrest.
    destruct (registerQueryCleanUp w3) as [[o2 t'] w4]; cbn [fst snd] in *.
    intros _. exists documents, c. split; [reflexivity|].
    destruct (Hexit c eq_refl) as [_ [Hnum Hlast]]. split; [|exact Hnum].
    rewrite !reads_app, Hreads_pre. cbn [reads app].
    rewrite (no_reads t' Hrest), app_nil_r. exact Hlast.
  - intros Hin. apply in_app_or in Hin. destruct Hin as [Hin|[Hin|Hin]];
      [now destruct (Hnot_pre pre Hpre Hin) | injection Hin as <-; discriminate
      | contradiction].
  - intros Hin. apply in_app_or in Hin. destruct Hin as [Hin|[Hin|Hin]];
      [now destruct (Hnot_pre pre Hpre Hin) | injection Hin as <-; discriminate
      | contradiction].
Qed.

Lemma quickstart_proceeds_only_after_convergence_witness :
  exists documents c,
    result_of (uploadAndFlush (reporting (Arr sampleRecords) (fun k => Z.of_nat k)))
      = Returned documents
    /\ last (reads (trace_of (quickstart 5 (reporting (Arr sampleRecords)
                                              (fun k => Z.of_nat k))))) = Some c
    /\ strict_equal_num c (field documents "length") = true.
Proof.
  apply (quickstart_proceeds_only_after_convergence 5
           (reporting (Arr sampleRecords) (fun k => Z.of_nat k)) SdkCreateKnowledgeSource).
  - simpl. tauto.
  - reflexivity.
Defined.
